(** * Money Mate: ledger records, debt lifecycle, reporting, preferences
      and family sharing

    A shallow embedding of the application's logic:
    - [src/types/index.ts]            the ledger record model;
    - [src/components/DebtManager.tsx] adding debts, recording payments,
                                       deleting debts, urgency bands;
    - [src/components/Analytics.tsx]   monthly and per-category aggregation;
    - [src/components/Settings.tsx]    lazy creation of the preferences record;
    - [src/components/FamilyAccess.tsx] granting and revoking view access.

    Conventions.  A JavaScript [number] that holds an amount is an exact
    rational ([Q]); [NaN], which the code only ever obtains from
    [parseFloat] or from an invalid [Date], is the [None] of an [option].
    Rounding of binary floating point and the infinities are outside the
    model.  Time stamps are integers (milliseconds since the epoch).  Async
    handlers are state transformers over a [World] that holds the remote
    store, the log of requests sent to it, the toasts shown, the
    confirmation prompts shown and the answers the user will give. *)

From Stdlib Require Import ZArith QArith Qround Qabs String Ascii List Bool Lia Lqa.
From Stdlib Require Import Sorting.Sorted Sorting.Permutation.
Import ListNotations.

Open Scope Q_scope.

(* ================================================================= *)
(** ** JavaScript values and built-ins *)

(** [!s] for a string [s]: only the empty string is falsy. *)
Definition falsy (s : string) : bool :=
  match s with EmptyString => true | String _ _ => false end.

(** [s || undefined] *)
Definition or_undefined (s : string) : option string :=
  if falsy s then None else Some s.

(** [s.includes(c)] for a one-character needle *)
Fixpoint includes (c : ascii) (s : string) : bool :=
  match s with
  | EmptyString => false
  | String a rest => if Ascii.eqb a c then true else includes c rest
  end.

(** [s.split(c)[0]]: the part of [s] before the first [c] *)
Fixpoint split_head (c : ascii) (s : string) : string :=
  match s with
  | EmptyString => EmptyString
  | String a rest =>
      if Ascii.eqb a c then EmptyString else String a (split_head c rest)
  end.

(** [a > b] and [a <= b] on numbers that are not [NaN] *)
Definition gtb (a b : Q) : bool := negb (Qle_bool a b).
Definition leb (a b : Q) : bool := Qle_bool a b.

(** The host functions the components call.  They are parameters of the
    development: nothing below depends on how the host parses a decimal
    literal or prints a date. *)
Record Builtins := {
  (** [parseFloat(s)]; [None] is [NaN] *)
  parseFloat : string -> option Q;
  (** [new Date(s).getTime()]; [None] is the [NaN] of an invalid date *)
  Date_getTime : string -> option Z;
  (** [new Date(ms).toISOString()] *)
  toISOString : Z -> string;
  (** [String(x)], also the text of a number inside a template literal *)
  Number_toString : Q -> string;
  (** [x.toFixed(digits)] *)
  toFixed : Q -> nat -> string
}.

(* ================================================================= *)
(** ** The ledger record model ([src/types/index.ts]) *)

Inductive TransactionType := income | expense.

Definition TransactionType_eqb (a b : TransactionType) : bool :=
  match a, b with
  | income, income | expense, expense => true
  | _, _ => false
  end.

Module Transaction.
Record t := mk {
  id : string;
  user_id : string;
  type : TransactionType;
  category : string;
  amount_cad : Q;
  amount_inr : Q;
  exchange_rate : Q;
  description : string;
  date : string;
  created_at : string;
  updated_at : string
}.
End Transaction.

Inductive DebtType := owe | lent.

Module Debt.
Record t := mk {
  id : string;
  user_id : string;
  type : DebtType;
  person_name : string;
  total_amount_cad : Q;
  total_amount_inr : Q;
  remaining_amount_cad : Q;
  remaining_amount_inr : Q;
  exchange_rate : Q;
  purpose : string;
  due_date : option string;
  is_paid : string;
  priority_score : Q;
  created_at : string;
  updated_at : string
}.
End Debt.

Module DebtPayment.
Record t := mk {
  id : string;
  debt_id : string;
  user_id : string;
  amount_cad : Q;
  amount_inr : Q;
  exchange_rate : Q;
  payment_date : string;
  notes : option string;
  created_at : string
}.
End DebtPayment.

Inductive Currency := CAD | INR.
Inductive Theme := light | dark.

Module UserPreferences.
Record t := mk {
  id : string;
  user_id : string;
  default_currency : Currency;
  theme : Theme;
  exchange_rate_cad_to_inr : Q;
  created_at : string;
  updated_at : string
}.
End UserPreferences.

Inductive AccessLevel := view.

Module FamilyAccess.
Record t := mk {
  id : string;
  owner_user_id : string;
  member_email : string;
  access_level : AccessLevel;
  is_active : string;
  created_at : string;
  updated_at : string
}.
End FamilyAccess.

(** The signed-in user of the session context. *)
Module User.
Record t := mk {
  id : string;
  email : string;
  displayName : option string
}.
End User.

(* ================================================================= *)
(** ** The world a handler runs in *)

(** The remote store, [blink.db]: its five collections and the requests
    the components send to it. *)
Module db.

Record Store := mkStore {
  transactions : list Transaction.t;
  debts : list Debt.t;
  debt_payments : list DebtPayment.t;
  user_preferences : list UserPreferences.t;
  family_access : list FamilyAccess.t
}.

Inductive Request :=
| transactions_list (user_id : string)
| transactions_delete (id : string)
| debts_list (user_id : string)
| debts_create (d : Debt.t)
| debts_update (id : string) (d : Debt.t)
| debts_delete (id : string)
| debt_payments_create (p : DebtPayment.t)
| user_preferences_list (user_id : string)
| user_preferences_create (p : UserPreferences.t)
| family_access_list (owner_user_id : string)
| family_access_create (f : FamilyAccess.t)
| family_access_delete (id : string).

Definition with_transactions (l : list Transaction.t) (s : Store) : Store :=
  mkStore l (debts s) (debt_payments s) (user_preferences s)
          (family_access s).

Definition with_debts (l : list Debt.t) (s : Store) : Store :=
  mkStore (transactions s) l (debt_payments s) (user_preferences s)
          (family_access s).

Definition with_debt_payments (l : list DebtPayment.t) (s : Store) : Store :=
  mkStore (transactions s) (debts s) l (user_preferences s)
          (family_access s).

Definition with_user_preferences (l : list UserPreferences.t) (s : Store)
  : Store :=
  mkStore (transactions s) (debts s) (debt_payments s) l (family_access s).

Definition with_family_access (l : list FamilyAccess.t) (s : Store) : Store :=
  mkStore (transactions s) (debts s) (debt_payments s) (user_preferences s) l.

End db.

Record Toast := mkToast {
  destructive : bool;
  toast_description : string
}.

Record World := mkWorld {
  (** the remote store *)
  store : db.Store;
  (** every request sent so far, oldest first *)
  requests : list db.Request;
  (** whether the next requests succeed; when the list is used up the
      remote store answers every request *)
  replies : list bool;
  (** every toast shown so far, oldest first *)
  toasts : list Toast;
  (** every [confirm(...)] prompt shown so far, oldest first *)
  prompts : list string;
  (** what the user answers to the next prompts; a missing answer is a
      dismissal *)
  answers : list bool;
  (** [Date.now()] *)
  clock : Z;
  (** [Math.random().toString(36).substr(2, 9)] *)
  entropy : string;
  (** [useAuth().user] *)
  user : option User.t
}.

Definition with_store (s : db.Store) (w : World) : World :=
  mkWorld s (requests w) (replies w) (toasts w) (prompts w) (answers w)
          (clock w) (entropy w) (user w).

Definition with_requests (r : list db.Request) (w : World) : World :=
  mkWorld (store w) r (replies w) (toasts w) (prompts w) (answers w)
          (clock w) (entropy w) (user w).

Definition with_replies (r : list bool) (w : World) : World :=
  mkWorld (store w) (requests w) r (toasts w) (prompts w) (answers w)
          (clock w) (entropy w) (user w).

Definition with_toasts (t : list Toast) (w : World) : World :=
  mkWorld (store w) (requests w) (replies w) t (prompts w) (answers w)
          (clock w) (entropy w) (user w).

Definition with_prompts (p : list string) (a : list bool) (w : World) : World :=
  mkWorld (store w) (requests w) (replies w) (toasts w) p a
          (clock w) (entropy w) (user w).

(** A computation either returns or throws; either way it leaves a world. *)
Inductive Outcome (A : Type) :=
| Returned (a : A)
| Thrown.
Arguments Returned {A} a.
Arguments Thrown {A}.

Definition Eff (A : Type) : Type := World -> Outcome A * World.

Definition ret {A} (a : A) : Eff A := fun w => (Returned a, w).

Definition bind {A B} (m : Eff A) (k : A -> Eff B) : Eff B :=
  fun w =>
    match m w with
    | (Returned a, w') => k a w'
    | (Thrown, w') => (Thrown, w')
    end.

Definition throw {A} : Eff A := fun w => (Thrown, w).

(** [try { body } catch (error) { handler }] *)
Definition try_catch {A} (body handler : Eff A) : Eff A :=
  fun w =>
    match body w with
    | (Returned a, w') => (Returned a, w')
    | (Thrown, w') => handler w'
    end.

Declare Scope eff_scope.
Delimit Scope eff_scope with eff.
Notation "x <- m ;; k" := (bind m (fun x => k))
  (at level 61, m at next level, right associativity) : eff_scope.
Notation "m ;; k" := (bind m (fun _ => k))
  (at level 61, right associativity) : eff_scope.
Open Scope eff_scope.

(** The world after a handler, whatever it returned. *)
Definition after {A} (m : Eff A) (w : World) : World := snd (m w).

(** [toast({ variant: "destructive", description })] *)
Definition toast_error (description : string) : Eff unit :=
  fun w => (Returned tt, with_toasts (toasts w ++ [mkToast true description]) w).

(** [toast({ description })] *)
Definition toast (description : string) : Eff unit :=
  fun w => (Returned tt, with_toasts (toasts w ++ [mkToast false description]) w).

(** [confirm(message)] *)
Definition confirm (message : string) : Eff bool :=
  fun w =>
    match answers w with
    | [] => (Returned false, with_prompts (prompts w ++ [message]) [] w)
    | a :: rest => (Returned a, with_prompts (prompts w ++ [message]) rest w)
    end.

(** [user!.id], [user!.email]: dereferencing a missing user throws. *)
Definition the_user : Eff User.t :=
  fun w => match user w with Some u => (Returned u, w) | None => (Thrown, w) end.

Definition Date_now : Eff Z := fun w => (Returned (clock w), w).
Definition Math_random : Eff string := fun w => (Returned (entropy w), w).

(** Whether the remote store answers the request after the next [n]. *)
Definition reply (n : nat) (w : World) : bool := nth n (replies w) true.

(** Sends a request.  The request is logged; when the remote store
    answers, [effect] is applied to it and [result] is read from it,
    otherwise the call throws and the store is untouched. *)
Definition send {A} (r : db.Request) (effect : db.Store -> db.Store)
    (result : db.Store -> A) : Eff A :=
  fun w =>
    let w1 := with_replies (tl (replies w))
                (with_requests (requests w ++ [r]) w) in
    if reply 0 w
    then let s := effect (store w) in (Returned (result s), with_store s w1)
    else (Thrown, w1).

(** [a.localeCompare(b)] on the keys the application compares (ISO dates
    and time stamps: ASCII digits and punctuation), where collation order
    is the order of the code units. *)
Definition localeCompare (a b : string) : Q :=
  match String.compare a b with
  | Lt => -1
  | Eq => 0
  | Gt => 1
  end.

(** [Array.prototype.sort(cmp)]: a stable sort; [x] is placed before the
    first [y] that does not have to precede it. *)
Fixpoint insert {A} (cmp : A -> A -> Q) (x : A) (l : list A) : list A :=
  match l with
  | [] => [x]
  | y :: rest =>
      if leb (cmp x y) 0 then x :: y :: rest else y :: insert cmp x rest
  end.

Definition Array_sort {A} (cmp : A -> A -> Q) (l : list A) : list A :=
  fold_right (insert cmp) [] l.

(** *** The calls of the remote data gateway

    The gateway is an external service and its client is not part of the
    sources; its calls follow the specification: [list(where, orderBy,
    limit)] filters by equality on the owner, orders by one field and
    truncates; [create(record)] appends the record and returns it;
    [update(id, record)] replaces the record of that id; [delete(id)]
    removes it. *)

(** Modelled from the spec: [transactions.list] of an owner, newest date
    first. *)
Definition blink_db_transactions_list (user_id : string)
  : Eff (list Transaction.t) :=
  send (db.transactions_list user_id) (fun s => s)
       (fun s =>
          Array_sort
            (fun a b => localeCompare (Transaction.date b) (Transaction.date a))
            (filter (fun t => String.eqb (Transaction.user_id t) user_id)
                    (db.transactions s))).

(** Modelled from the spec: [transactions.delete(id)]. *)
Definition blink_db_transactions_delete (id : string) : Eff unit :=
  send (db.transactions_delete id)
       (fun s =>
          db.with_transactions
            (filter (fun x => negb (String.eqb (Transaction.id x) id))
                    (db.transactions s)) s)
       (fun _ => tt).

(** Modelled from the spec: [debts.list] of an owner, newest first. *)
Definition blink_db_debts_list (user_id : string) : Eff (list Debt.t) :=
  send (db.debts_list user_id) (fun s => s)
       (fun s =>
          Array_sort
            (fun a b => localeCompare (Debt.created_at b) (Debt.created_at a))
            (filter (fun d => String.eqb (Debt.user_id d) user_id)
                    (db.debts s))).

(** Modelled from the spec: [debts.create(record)]. *)
Definition blink_db_debts_create (d : Debt.t) : Eff Debt.t :=
  send (db.debts_create d)
       (fun s => db.with_debts (db.debts s ++ [d]) s)
       (fun _ => d).

(** Modelled from the spec: [debts.update(id, record)]. *)
Definition blink_db_debts_update (id : string) (d : Debt.t) : Eff unit :=
  send (db.debts_update id d)
       (fun s =>
          db.with_debts
            (map (fun x => if String.eqb (Debt.id x) id then d else x)
                 (db.debts s)) s)
       (fun _ => tt).

(** Modelled from the spec: [debts.delete(id)]. *)
Definition blink_db_debts_delete (id : string) : Eff unit :=
  send (db.debts_delete id)
       (fun s =>
          db.with_debts
            (filter (fun x => negb (String.eqb (Debt.id x) id)) (db.debts s)) s)
       (fun _ => tt).

(** Modelled from the spec: [debt_payments.create(record)]. *)
Definition blink_db_debt_payments_create (p : DebtPayment.t)
  : Eff DebtPayment.t :=
  send (db.debt_payments_create p)
       (fun s => db.with_debt_payments (db.debt_payments s ++ [p]) s)
       (fun _ => p).

(** Modelled from the spec: [user_preferences.list] of an owner, at most
    [limit] records. *)
Definition blink_db_user_preferences_list (user_id : string) (limit : nat)
  : Eff (list UserPreferences.t) :=
  send (db.user_preferences_list user_id) (fun s => s)
       (fun s =>
          firstn limit
            (filter (fun p => String.eqb (UserPreferences.user_id p) user_id)
                    (db.user_preferences s))).

(** Modelled from the spec: [user_preferences.create(record)]. *)
Definition blink_db_user_preferences_create (p : UserPreferences.t)
  : Eff UserPreferences.t :=
  send (db.user_preferences_create p)
       (fun s => db.with_user_preferences (db.user_preferences s ++ [p]) s)
       (fun _ => p).

(** Modelled from the spec: [family_access.list] of an owner, newest
    first. *)
Definition blink_db_family_access_list (owner_user_id : string)
  : Eff (list FamilyAccess.t) :=
  send (db.family_access_list owner_user_id) (fun s => s)
       (fun s =>
          Array_sort
            (fun a b =>
               localeCompare (FamilyAccess.created_at b)
                             (FamilyAccess.created_at a))
            (filter
               (fun f => String.eqb (FamilyAccess.owner_user_id f) owner_user_id)
               (db.family_access s))).

(** Modelled from the spec: [family_access.create(record)]. *)
Definition blink_db_family_access_create (f : FamilyAccess.t)
  : Eff FamilyAccess.t :=
  send (db.family_access_create f)
       (fun s => db.with_family_access (db.family_access s ++ [f]) s)
       (fun _ => f).

(** Modelled from the spec: [family_access.delete(id)]. *)
Definition blink_db_family_access_delete (id : string) : Eff unit :=
  send (db.family_access_delete id)
       (fun s =>
          db.with_family_access
            (filter (fun x => negb (String.eqb (FamilyAccess.id x) id))
                    (db.family_access s)) s)
       (fun _ => tt).

(* ================================================================= *)
(** ** The debt manager ([src/components/DebtManager.tsx]) *)

Inductive Priority := overdue | urgent | medium | low.

Module NewDebt.
Record t := mk {
  type : DebtType;
  person_name : string;
  amount : string;
  purpose : string;
  due_date : string
}.
End NewDebt.

Module Payment.
Record t := mk {
  amount : string;
  notes : string
}.
End Payment.

Module DebtManager.

(** The component's state. *)
Record State := mkState {
  debts : list Debt.t;
  loading : bool;
  addDialogOpen : bool;
  paymentDialogOpen : bool;
  selectedDebt : option Debt.t;
  newDebt : NewDebt.t;
  payment : Payment.t
}.

Definition setDebts (l : list Debt.t) (st : State) : State :=
  mkState l (loading st) (addDialogOpen st) (paymentDialogOpen st)
          (selectedDebt st) (newDebt st) (payment st).

Definition setLoading (b : bool) (st : State) : State :=
  mkState (debts st) b (addDialogOpen st) (paymentDialogOpen st)
          (selectedDebt st) (newDebt st) (payment st).

Definition setAddDialogOpen (b : bool) (st : State) : State :=
  mkState (debts st) (loading st) b (paymentDialogOpen st)
          (selectedDebt st) (newDebt st) (payment st).

Definition setPaymentDialogOpen (b : bool) (st : State) : State :=
  mkState (debts st) (loading st) (addDialogOpen st) b
          (selectedDebt st) (newDebt st) (payment st).

Definition setSelectedDebt (d : option Debt.t) (st : State) : State :=
  mkState (debts st) (loading st) (addDialogOpen st) (paymentDialogOpen st)
          d (newDebt st) (payment st).

Definition setNewDebt (n : NewDebt.t) (st : State) : State :=
  mkState (debts st) (loading st) (addDialogOpen st) (paymentDialogOpen st)
          (selectedDebt st) n (payment st).

Definition setPayment (p : Payment.t) (st : State) : State :=
  mkState (debts st) (loading st) (addDialogOpen st) (paymentDialogOpen st)
          (selectedDebt st) (newDebt st) p.

(** [const [exchangeRate] = useState(61.5)]: the state has no setter. *)
Definition exchangeRate : Q := 61.5.

(** [1000 * 60 * 60 * 24]: the milliseconds of a day. *)
Definition ms_per_day : Z := 1000 * 60 * 60 * 24.

Section WithBuiltins.
Variable js : Builtins.

Definition rupee : string :=
  String (ascii_of_nat 226) (String (ascii_of_nat 130)
    (String (ascii_of_nat 185) EmptyString)).

Definition formatCurrency (amount : Q) (currency : Currency) : string :=
  match currency with
  | CAD => ("CA$" ++ toFixed js amount 2)%string
  | INR => (rupee ++ toFixed js (amount * exchangeRate) 0)%string
  end.

Definition loadDebts (st : State) : Eff State :=
  st' <- try_catch
           (u <- the_user ;;
            allDebts <- blink_db_debts_list (User.id u) ;;
            ret (setDebts allDebts (setLoading true st)))
           (toast_error "Failed to load debts" ;;
            ret (setLoading true st)) ;;
  ret (setLoading false st').

(** The [Debt] literal of [handleAddDebt]. *)
Definition new_debt (form : NewDebt.t) (amountCad : Q) (now : Z)
    (rnd : string) (u : User.t) : Debt.t :=
  Debt.mk
    ("debt_" ++ Number_toString js (inject_Z now) ++ "_" ++ rnd)
    (User.id u)
    (NewDebt.type form)
    (NewDebt.person_name form)
    amountCad
    (amountCad * exchangeRate)
    amountCad
    (amountCad * exchangeRate)
    exchangeRate
    (NewDebt.purpose form)
    (or_undefined (NewDebt.due_date form))
    "0"
    0
    (toISOString js now)
    (toISOString js now).

Definition empty_form : NewDebt.t :=
  NewDebt.mk owe EmptyString EmptyString EmptyString EmptyString.

Definition handleAddDebt (st : State) : Eff State :=
  let form := newDebt st in
  if falsy (NewDebt.person_name form) || falsy (NewDebt.amount form)
     || falsy (NewDebt.purpose form)
  then toast_error "Please fill in all required fields" ;; ret st
  else
    match parseFloat js (NewDebt.amount form) with
    | None => toast_error "Please enter a valid amount" ;; ret st
    | Some amountCad =>
        if leb amountCad 0
        then toast_error "Please enter a valid amount" ;; ret st
        else
          try_catch
            (now <- Date_now ;;
             rnd <- Math_random ;;
             u <- the_user ;;
             let debt := new_debt form amountCad now rnd u in
             blink_db_debts_create debt ;;
             toast (match NewDebt.type form with
                    | owe => "Debt"
                    | lent => "Loan"
                    end ++ " added successfully!") ;;
             loadDebts (setAddDialogOpen false (setNewDebt empty_form st)))
            (toast_error "Failed to add debt" ;; ret st)
    end.

(** The [DebtPayment] literal of [handlePayment]. *)
Definition paymentRecord (selectedDebt : Debt.t) (paymentAmount : Q)
    (notes : string) (now : Z) (rnd : string) (u : User.t) : DebtPayment.t :=
  DebtPayment.mk
    ("payment_" ++ Number_toString js (inject_Z now) ++ "_" ++ rnd)
    (Debt.id selectedDebt)
    (User.id u)
    paymentAmount
    (paymentAmount * exchangeRate)
    exchangeRate
    (split_head "T" (toISOString js now))
    (or_undefined notes)
    (toISOString js now).

(** The [updatedDebt] literal of [handlePayment]: the selected debt spread,
    with four fields overwritten. *)
Definition updatedDebt (selectedDebt : Debt.t) (paymentAmount : Q) (now : Z)
  : Debt.t :=
  let newRemainingAmount :=
    Debt.remaining_amount_cad selectedDebt - paymentAmount in
  Debt.mk
    (Debt.id selectedDebt)
    (Debt.user_id selectedDebt)
    (Debt.type selectedDebt)
    (Debt.person_name selectedDebt)
    (Debt.total_amount_cad selectedDebt)
    (Debt.total_amount_inr selectedDebt)
    newRemainingAmount
    (newRemainingAmount * exchangeRate)
    (Debt.exchange_rate selectedDebt)
    (Debt.purpose selectedDebt)
    (Debt.due_date selectedDebt)
    (if leb newRemainingAmount 0 then "1" else "0")
    (Debt.priority_score selectedDebt)
    (Debt.created_at selectedDebt)
    (toISOString js now).

Definition handlePayment (st : State) : Eff State :=
  match selectedDebt st with
  | None => toast_error "Please enter payment amount" ;; ret st
  | Some selected =>
      if falsy (Payment.amount (payment st))
      then toast_error "Please enter payment amount" ;; ret st
      else
        match parseFloat js (Payment.amount (payment st)) with
        | None => toast_error "Please enter a valid payment amount" ;; ret st
        | Some paymentAmount =>
            if leb paymentAmount 0
            then toast_error "Please enter a valid payment amount" ;; ret st
            else if gtb paymentAmount (Debt.remaining_amount_cad selected)
            then toast_error "Payment amount cannot exceed remaining debt" ;;
                 ret st
            else
              try_catch
                (now <- Date_now ;;
                 rnd <- Math_random ;;
                 u <- the_user ;;
                 blink_db_debt_payments_create
                   (paymentRecord selected paymentAmount
                      (Payment.notes (payment st)) now rnd u) ;;
                 now' <- Date_now ;;
                 blink_db_debts_update (Debt.id selected)
                   (updatedDebt selected paymentAmount now') ;;
                 toast ("Payment of " ++ formatCurrency paymentAmount CAD
                        ++ " recorded successfully!") ;;
                 loadDebts
                   (setSelectedDebt None
                      (setPaymentDialogOpen false
                         (setPayment (Payment.mk EmptyString EmptyString) st))))
                (toast_error "Failed to record payment" ;; ret st)
        end
  end.

Definition deleteDebt (debtId : string) (st : State) : Eff State :=
  try_catch
    (blink_db_debts_delete debtId ;;
     toast "Debt deleted successfully" ;;
     loadDebts st)
    (toast_error "Failed to delete debt" ;; ret st).

(** [getDaysUntilDue], with the current time passed in; [None] is [NaN]. *)
Definition getDaysUntilDue (today : Z) (dueDate : string) : option Z :=
  match Date_getTime js dueDate with
  | None => None
  | Some due =>
      let diffTime := (due - today)%Z in
      let diffDays := Qceiling (inject_Z diffTime / inject_Z ms_per_day) in
      Some diffDays
  end.

Definition getPriorityLevel (today : Z) (debt : Debt.t) : Priority :=
  match Debt.due_date debt with
  | None => low
  | Some due_date =>
      if falsy due_date then low
      else
        match getDaysUntilDue today due_date with
        | None => low
        | Some daysUntilDue =>
            if (daysUntilDue <? 0)%Z then overdue
            else if (daysUntilDue <=? 7)%Z then urgent
            else if (daysUntilDue <=? 30)%Z then medium
            else low
        end
  end.

End WithBuiltins.
End DebtManager.

(* ================================================================= *)
(** ** The transaction history (the component with [handleDeleteTransaction]) *)

Module TransactionHistory.

(** The fields of the component's state that deleting reads or writes. *)
Record State := mkState {
  transactions : list Transaction.t;
  loading : bool
}.

Definition loadTransactions (st : State) : Eff State :=
  st' <- try_catch
           (u <- the_user ;;
            allTransactions <- blink_db_transactions_list (User.id u) ;;
            ret (mkState allTransactions true))
           (toast_error "Failed to load transactions" ;;
            ret (mkState (transactions st) true)) ;;
  ret (mkState (transactions st') false).

Definition handleDeleteTransaction (transactionId : string) (st : State)
  : Eff State :=
  confirmed <- confirm "Are you sure you want to delete this transaction?" ;;
  if negb confirmed then ret st
  else
    try_catch
      (blink_db_transactions_delete transactionId ;;
       toast "Transaction deleted successfully" ;;
       loadTransactions st)
      (toast_error "Failed to delete transaction" ;; ret st).

End TransactionHistory.

(* ================================================================= *)
(** ** Reporting ([src/components/Analytics.tsx]) *)

(** A JavaScript [Map] with string keys: the entries in insertion order;
    [set] on a present key overwrites the value where it stands. *)
Module Map.

Definition t (V : Type) : Type := list (string * V).

Fixpoint get {V} (k : string) (m : t V) : option V :=
  match m with
  | [] => None
  | (k', v) :: rest => if String.eqb k' k then Some v else get k rest
  end.

Fixpoint set {V} (k : string) (v : V) (m : t V) : t V :=
  match m with
  | [] => [(k, v)]
  | (k', v') :: rest =>
      if String.eqb k' k then (k', v) :: rest else (k', v') :: set k v rest
  end.

Definition entries {V} (m : t V) : list (string * V) := m.

End Map.

Module MonthlyData.
Record t := mk {
  month : string;
  income : Q;
  expenses : Q;
  net : Q
}.
End MonthlyData.

Module CategoryData.
Record t := mk {
  category : string;
  amount : Q;
  percentage : Q;
  transactions : nat
}.
End CategoryData.

(** The values of [monthlyMap]. *)
Module MonthlySums.
Record t := mk {
  income : Q;
  expenses : Q
}.
End MonthlySums.

(** The values of [categoryMap]. *)
Module CategorySums.
Record t := mk {
  amount : Q;
  count : nat
}.
End CategorySums.

Module Analytics.

(** One turn of the [forEach] of [getMonthlyData]. *)
Definition monthly_step (monthlyMap : Map.t MonthlySums.t)
    (transaction : Transaction.t) : Map.t MonthlySums.t :=
  let monthKey := substring 0 7 (Transaction.date transaction) in
  let existing :=
    match Map.get monthKey monthlyMap with
    | Some e => e
    | None => MonthlySums.mk 0 0
    end in
  let existing :=
    match Transaction.type transaction with
    | income =>
        MonthlySums.mk
          (MonthlySums.income existing + Transaction.amount_cad transaction)
          (MonthlySums.expenses existing)
    | expense =>
        MonthlySums.mk
          (MonthlySums.income existing)
          (MonthlySums.expenses existing + Transaction.amount_cad transaction)
    end in
  Map.set monthKey existing monthlyMap.

Definition getMonthlyData (transactions : list Transaction.t)
  : list MonthlyData.t :=
  let monthlyMap := fold_left monthly_step transactions [] in
  Array_sort
    (fun a b => localeCompare (MonthlyData.month a) (MonthlyData.month b))
    (map (fun '(month, data) =>
            MonthlyData.mk month
              (MonthlySums.income data)
              (MonthlySums.expenses data)
              (MonthlySums.income data - MonthlySums.expenses data))
         (Map.entries monthlyMap)).

(** One turn of the [forEach] of [getCategoryData]. *)
Definition category_step (categoryMap : Map.t CategorySums.t)
    (transaction : Transaction.t) : Map.t CategorySums.t :=
  let existing :=
    match Map.get (Transaction.category transaction) categoryMap with
    | Some e => e
    | None => CategorySums.mk 0 0
    end in
  let existing :=
    CategorySums.mk
      (CategorySums.amount existing + Transaction.amount_cad transaction)
      (CategorySums.count existing + 1) in
  Map.set (Transaction.category transaction) existing categoryMap.

Definition getCategoryData (transactions : list Transaction.t)
    (type : TransactionType) : list CategoryData.t :=
  let typeTransactions :=
    filter (fun t => TransactionType_eqb (Transaction.type t) type)
           transactions in
  let totalAmount :=
    fold_left (fun sum t => sum + Transaction.amount_cad t)
              typeTransactions 0 in
  let categoryMap := fold_left category_step typeTransactions [] in
  Array_sort
    (fun a b => CategoryData.amount b - CategoryData.amount a)
    (map (fun '(category, data) =>
            CategoryData.mk category
              (CategorySums.amount data)
              (if gtb totalAmount 0
               then CategorySums.amount data / totalAmount * 100
               else 0)
              (CategorySums.count data))
         (Map.entries categoryMap)).

End Analytics.

(* ================================================================= *)
(** ** Preferences ([src/components/Settings.tsx]) *)

Module Settings.

Record State := mkState {
  loading : bool;
  isDark : bool;
  preferences : option UserPreferences.t;
  exchangeRate : string;
  isUpdatingRate : bool
}.

Definition setPreferences (p : option UserPreferences.t) (st : State) : State :=
  mkState (loading st) (isDark st) p (exchangeRate st) (isUpdatingRate st).

Definition setExchangeRate (r : string) (st : State) : State :=
  mkState (loading st) (isDark st) (preferences st) r (isUpdatingRate st).

Section WithBuiltins.
Variable js : Builtins.

(** The [defaultPrefs] literal of [loadPreferences]. *)
Definition defaultPrefs (now : Z) (rnd : string) (u : User.t)
  : UserPreferences.t :=
  UserPreferences.mk
    ("pref_" ++ Number_toString js (inject_Z now) ++ "_" ++ rnd)
    (User.id u)
    CAD
    light
    61.5
    (toISOString js now)
    (toISOString js now).

Definition loadPreferences (st : State) : Eff State :=
  try_catch
    (u <- the_user ;;
     userPrefs <- blink_db_user_preferences_list (User.id u) 1 ;;
     match userPrefs with
     | first :: _ =>
         ret (setExchangeRate
                (Number_toString js
                   (UserPreferences.exchange_rate_cad_to_inr first))
                (setPreferences (Some first) st))
     | [] =>
         now <- Date_now ;;
         rnd <- Math_random ;;
         u <- the_user ;;
         created <- blink_db_user_preferences_create (defaultPrefs now rnd u) ;;
         ret (setPreferences (Some created) st)
     end)
    (ret st).

End WithBuiltins.
End Settings.

(* ================================================================= *)
(** ** Family sharing ([src/components/FamilyAccess.tsx]) *)

Module FamilySharing.

Record State := mkState {
  familyMembers : list FamilyAccess.t;
  loading : bool;
  addDialogOpen : bool;
  newMemberEmail : string
}.

Definition setFamilyMembers (l : list FamilyAccess.t) (st : State) : State :=
  mkState l (loading st) (addDialogOpen st) (newMemberEmail st).

Definition setLoading (b : bool) (st : State) : State :=
  mkState (familyMembers st) b (addDialogOpen st) (newMemberEmail st).

(** [newMemberEmail === user?.email] *)
Definition is_own_email (newMemberEmail : string) : Eff bool :=
  fun w =>
    (Returned match user w with
              | Some u => String.eqb newMemberEmail (User.email u)
              | None => false
              end, w).

Section WithBuiltins.
Variable js : Builtins.

Definition loadFamilyMembers (st : State) : Eff State :=
  st' <- try_catch
           (u <- the_user ;;
            members <- blink_db_family_access_list (User.id u) ;;
            ret (setFamilyMembers members (setLoading true st)))
           (toast_error "Failed to load family members" ;;
            ret (setLoading true st)) ;;
  ret (setLoading false st').

(** The [FamilyAccess] literal of [addFamilyMember]. *)
Definition new_member (newMemberEmail : string) (now : Z) (rnd : string)
    (u : User.t) : FamilyAccess.t :=
  FamilyAccess.mk
    ("family_" ++ Number_toString js (inject_Z now) ++ "_" ++ rnd)
    (User.id u)
    newMemberEmail
    view
    "1"
    (toISOString js now)
    (toISOString js now).

Definition addFamilyMember (st : State) : Eff State :=
  if falsy (newMemberEmail st) || negb (includes "@" (newMemberEmail st))
  then toast_error "Please enter a valid email address" ;; ret st
  else
    own <- is_own_email (newMemberEmail st) ;;
    if own
    then toast_error "You cannot add yourself as a family member" ;; ret st
    else
      match find (fun m => String.eqb (FamilyAccess.member_email m)
                                      (newMemberEmail st))
                 (familyMembers st) with
      | Some existingMember =>
          toast_error "This email is already added as a family member" ;;
          ret st
      | None =>
          try_catch
            (now <- Date_now ;;
             rnd <- Math_random ;;
             u <- the_user ;;
             blink_db_family_access_create
               (new_member (newMemberEmail st) now rnd u) ;;
             toast "Family member added successfully! They can now view your financial data." ;;
             loadFamilyMembers
               (mkState (familyMembers st) (loading st) false EmptyString))
            (toast_error "Failed to add family member" ;; ret st)
      end.

Definition removeFamilyMember (memberId memberEmail : string) (st : State)
  : Eff State :=
  confirmed <- confirm ("Are you sure you want to remove " ++ memberEmail
                        ++ " from family access?") ;;
  if negb confirmed then ret st
  else
    try_catch
      (blink_db_family_access_delete memberId ;;
       toast "Family member removed successfully" ;;
       loadFamilyMembers st)
      (toast_error "Failed to remove family member" ;; ret st).

End WithBuiltins.
End FamilySharing.

(* ================================================================= *)
(** ** A host to run the handlers on

    An instance of [Builtins] for evaluating the definitions above on
    concrete inputs: decimal literals with an optional sign and fraction,
    ISO calendar dates, and decimal printing.  The theorems below hold for
    every host, this one included. *)

Module Host.

Definition digit_of (c : ascii) : option Z :=
  let n := Z.of_nat (nat_of_ascii c) in
  if ((48 <=? n) && (n <=? 57))%Z then Some (n - 48)%Z else None.

(** Reads the decimal digits at the head of [s]: their value, how many
    there are, and the rest of the string. *)
Fixpoint read_digits (s : string) (acc : Z) (len : nat) : Z * nat * string :=
  match s with
  | EmptyString => (acc, len, s)
  | String c rest =>
      match digit_of c with
      | Some d => read_digits rest (10 * acc + d)%Z (S len)
      | None => (acc, len, s)
      end
  end.

Definition read_unsigned (s : string) : option Q :=
  let '(whole, n, rest) := read_digits s 0%Z 0%nat in
  match rest with
  | String "." after =>
      let '(frac, k, _) := read_digits after 0%Z 0%nat in
      match n, k with
      | O, O => None
      | _, _ =>
          Some (inject_Z whole
                + inject_Z frac / inject_Z (10 ^ Z.of_nat k))
      end
  | _ => match n with O => None | S _ => Some (inject_Z whole) end
  end.

Definition parseFloat (s : string) : option Q :=
  match s with
  | String "-" rest => option_map Qopp (read_unsigned rest)
  | String "+" rest => read_unsigned rest
  | _ => read_unsigned s
  end.

(** Days from 1970-01-01 to the given day of the proleptic Gregorian
    calendar. *)
Definition days_from_civil (y m d : Z) : Z :=
  let y' := if (m <=? 2)%Z then (y - 1)%Z else y in
  let era := (y' / 400)%Z in
  let yoe := (y' - era * 400)%Z in
  let mp := if (m <=? 2)%Z then (m + 9)%Z else (m - 3)%Z in
  let doy := ((153 * mp + 2) / 5 + d - 1)%Z in
  let doe := (yoe * 365 + yoe / 4 - yoe / 100 + doy)%Z in
  (era * 146097 + doe - 719468)%Z.

(** [new Date("YYYY-MM-DD").getTime()]: midnight UTC of that day. *)
Definition Date_getTime (s : string) : option Z :=
  let '(y, ny, r1) := read_digits s 0%Z 0%nat in
  match r1 with
  | String "-" r2 =>
      let '(m, nm, r3) := read_digits r2 0%Z 0%nat in
      match r3 with
      | String "-" r4 =>
          let '(d, nd, r5) := read_digits r4 0%Z 0%nat in
          if (Nat.eqb ny 4 && Nat.eqb nm 2 && Nat.eqb nd 2 && falsy r5
              && (1 <=? m)%Z && (m <=? 12)%Z && (1 <=? d)%Z && (d <=? 31)%Z)%bool
          then Some (days_from_civil y m d * 86400000)%Z
          else None
      | _ => None
      end
  | _ => None
  end.

Definition digit_char (d : Z) : ascii := ascii_of_nat (Z.to_nat (48 + d mod 10)).

(** The last [width] decimal digits of [n], most significant first. *)
Fixpoint fixed_width (width : nat) (n : Z) : string :=
  match width with
  | O => EmptyString
  | S w => (fixed_width w (n / 10) ++ String (digit_char n) EmptyString)%string
  end.

Fixpoint count_digits (fuel : nat) (n : Z) : nat :=
  match fuel with
  | O => 1
  | S f => if (n <? 10)%Z then 1 else S (count_digits f (n / 10))
  end.

Definition show_nat (n : Z) : string :=
  fixed_width (count_digits (Z.to_nat (Z.log2 n)) n) n.

Definition show_int (n : Z) : string :=
  if (n <? 0)%Z then ("-" ++ show_nat (- n))%string else show_nat n.

(** The civil date of a day count: year, month, day. *)
Definition civil_from_days (z : Z) : Z * Z * Z :=
  let z := (z + 719468)%Z in
  let era := (z / 146097)%Z in
  let doe := (z - era * 146097)%Z in
  let yoe := ((doe - doe / 1460 + doe / 36524 - doe / 146096) / 365)%Z in
  let doy := (doe - (365 * yoe + yoe / 4 - yoe / 100))%Z in
  let mp := ((5 * doy + 2) / 153)%Z in
  let d := (doy - (153 * mp + 2) / 5 + 1)%Z in
  let m := if (mp <? 10)%Z then (mp + 3)%Z else (mp - 9)%Z in
  let y := (yoe + era * 400 + (if (m <=? 2)%Z then 1 else 0))%Z in
  (y, m, d).

Definition toISOString (ms : Z) : string :=
  let '(y, m, d) := civil_from_days (ms / 86400000) in
  let t := (ms mod 86400000)%Z in
  (fixed_width 4 y ++ "-" ++ fixed_width 2 m ++ "-" ++ fixed_width 2 d
   ++ "T" ++ fixed_width 2 (t / 3600000)
   ++ ":" ++ fixed_width 2 (t / 60000 mod 60)
   ++ ":" ++ fixed_width 2 (t / 1000 mod 60)
   ++ "." ++ fixed_width 3 (t mod 1000) ++ "Z")%string.

(** [x.toFixed(digits)], rounding half away from zero. *)
Definition toFixed (x : Q) (digits : nat) : string :=
  let scale := (10 ^ Z.of_nat digits)%Z in
  let scaled := Qfloor (Qabs x * inject_Z scale + (1 # 2)) in
  let body :=
    match digits with
    | O => show_nat scaled
    | S _ => (show_nat (scaled / scale) ++ "."
              ++ fixed_width digits (scaled mod scale))%string
    end in
  if Qle_bool 0 x then body else ("-" ++ body)%string.

(** [String(x)] for whole numbers; other values are printed to two
    places. *)
Definition Number_toString (x : Q) : string :=
  if Qeq_bool x (inject_Z (Qfloor x)) then show_int (Qfloor x)
  else toFixed x 2.

Definition js : Builtins :=
  Build_Builtins parseFloat Date_getTime toISOString Number_toString toFixed.

End Host.

(* ================================================================= *)
(** ** What a debt has to satisfy, and which debts the handlers write *)

(** The invariant of a debt record. *)
Definition debt_invariant (d : Debt.t) : Prop :=
  0 <= Debt.remaining_amount_cad d
  /\ Debt.remaining_amount_cad d <= Debt.total_amount_cad d
  /\ (Debt.is_paid d = "1"%string <-> Debt.remaining_amount_cad d <= 0).

(** [r] is sent while [m] runs from [w]. *)
Definition sends {A} (m : Eff A) (w : World) (r : db.Request) : Prop :=
  exists rest, requests (after m w) = requests w ++ rest /\ In r rest.

(** The debts the application writes to the remote store: those created
    by [handleAddDebt], and those [handlePayment] stores for a selected
    debt that was itself written by the application. *)
Inductive produced (js : Builtins) : Debt.t -> Prop :=
| produced_by_add (st : DebtManager.State) (w : World) (d : Debt.t) :
    sends (DebtManager.handleAddDebt js st) w (db.debts_create d) ->
    produced js d
| produced_by_payment (st : DebtManager.State) (w : World)
    (selected : Debt.t) (id : string) (d : Debt.t) :
    DebtManager.selectedDebt st = Some selected ->
    produced js selected ->
    sends (DebtManager.handlePayment js st) w (db.debts_update id d) ->
    produced js d.

(** The amount typed into the payment form is refused for [selected]: it
    does not read as a number, is not positive, or exceeds what remains. *)
Definition refused_amount (js : Builtins) (selected : Debt.t) (amount : string)
  : Prop :=
  match parseFloat js amount with
  | None => True
  | Some paymentAmount =>
      paymentAmount <= 0
      \/ Debt.remaining_amount_cad selected < paymentAmount
  end.

(* ================================================================= *)
(** ** Vocabulary for the reporting properties *)

(** The sum of the base-currency amounts of a list of transactions. *)
Definition sum_amount_cad (l : list Transaction.t) : Q :=
  fold_right (fun t s => Transaction.amount_cad t + s) 0 l.

(** The transactions of a month, of a category, of a type. *)
Definition monthKey (t : Transaction.t) : string :=
  substring 0 7 (Transaction.date t).

Definition of_month (month : string) (l : list Transaction.t)
  : list Transaction.t :=
  filter (fun t => String.eqb (monthKey t) month) l.

Definition of_category (category : string) (l : list Transaction.t)
  : list Transaction.t :=
  filter (fun t => String.eqb (Transaction.category t) category) l.

Definition of_type (type : TransactionType) (l : list Transaction.t)
  : list Transaction.t :=
  filter (fun t => TransactionType_eqb (Transaction.type t) type) l.

(** The shape the two [forEach] bodies share: read the entry of the key
    or start from [init], fold the element in, store the entry back. *)
Definition upsert {T V} (key : T -> string) (init : V) (f : V -> T -> V)
    (m : Map.t V) (x : T) : Map.t V :=
  let existing :=
    match Map.get (key x) m with Some e => e | None => init end in
  Map.set (key x) (f existing x) m.

(** What one transaction adds to the sums of its month. *)
Definition monthly_add (existing : MonthlySums.t) (transaction : Transaction.t)
  : MonthlySums.t :=
  match Transaction.type transaction with
  | income =>
      MonthlySums.mk
        (MonthlySums.income existing + Transaction.amount_cad transaction)
        (MonthlySums.expenses existing)
  | expense =>
      MonthlySums.mk
        (MonthlySums.income existing)
        (MonthlySums.expenses existing + Transaction.amount_cad transaction)
  end.

(** What one transaction adds to the sums of its category. *)
Definition category_add (existing : CategorySums.t)
    (transaction : Transaction.t) : CategorySums.t :=
  CategorySums.mk
    (CategorySums.amount existing + Transaction.amount_cad transaction)
    (CategorySums.count existing + 1).

(** The row of the monthly report for one entry of the map. *)
Definition monthly_row (entry : string * MonthlySums.t) : MonthlyData.t :=
  let '(month, data) := entry in
  MonthlyData.mk month
    (MonthlySums.income data)
    (MonthlySums.expenses data)
    (MonthlySums.income data - MonthlySums.expenses data).

(** The row of the category report for one entry of the map. *)
Definition category_row (totalAmount : Q) (entry : string * CategorySums.t)
  : CategoryData.t :=
  let '(category, data) := entry in
  CategoryData.mk category
    (CategorySums.amount data)
    (if gtb totalAmount 0
     then CategorySums.amount data / totalAmount * 100
     else 0)
    (CategorySums.count data).

(* ================================================================= *)
(** ** Sample data

    A signed-in user, a debt of 100 due on 2024-01-22, and the world on
    2024-01-15 at 10:00 UTC, used to run the handlers under [Host.js]. *)

Module Sample.

Definition owner : User.t :=
  User.mk "user_1" "owner@example.com" (Some "Owner"%string).

Definition debt : Debt.t :=
  Debt.mk "debt_1" "user_1" owe "Alex" 100 6150 100 6150 61.5 "rent"
    (Some "2024-01-22"%string) "0" 0
    "2024-01-01T00:00:00.000Z" "2024-01-01T00:00:00.000Z".

Definition grant : FamilyAccess.t :=
  FamilyAccess.mk "family_1" "user_1" "sister@example.com" view "1"
    "2024-01-02T00:00:00.000Z" "2024-01-02T00:00:00.000Z".

Definition today : Z := 1705312800000.

Definition world : World :=
  mkWorld (db.mkStore [] [debt] [] [] [grant]) [] [] [] [] []
          today "k3x9q2m1z" (Some owner).

(** The debt manager with [debt] selected and [amount] typed into the
    payment form. *)
Definition paying (amount : string) : DebtManager.State :=
  DebtManager.mkState [debt] false false true (Some debt)
    DebtManager.empty_form (Payment.mk amount EmptyString).

(** The debt manager with a new debt of 200 typed into the form. *)
Definition adding : DebtManager.State :=
  DebtManager.mkState [] false true false None
    (NewDebt.mk owe "Sam" "200" "loan" EmptyString)
    (Payment.mk EmptyString EmptyString).

Definition settings : Settings.State :=
  Settings.mkState false false None "61.5" false.

(** The family page with [email] typed into the form. *)
Definition inviting (email : string) : FamilySharing.State :=
  FamilySharing.mkState [grant] false true email.

Definition transaction (type : TransactionType) (category : string)
    (amount_cad : Q) (date : string) : Transaction.t :=
  Transaction.mk "transaction_1" "user_1" type category amount_cad
    (amount_cad * 61.5) 61.5 "sample" date
    "2024-01-01T00:00:00.000Z" "2024-01-01T00:00:00.000Z".

Definition ledger : list Transaction.t :=
  [transaction income "Salary" 100 "2024-01-10";
   transaction expense "Groceries" 30 "2024-01-12";
   transaction income "Gift" 50 "2024-02-03"].

End Sample.

(* ================================================================= *)
(** ** More of the components *)

(** The progress bar of a debt card ([DebtManager.tsx], in the list of
    active debts). *)
Module DebtCard.

Definition progressPercentage (debt : Debt.t) : Q :=
  ((Debt.total_amount_cad debt - Debt.remaining_amount_cad debt)
   / Debt.total_amount_cad debt) * 100.

End DebtCard.

(** How pressing a priority is, for comparing two of them. *)
Definition urgency (p : Priority) : nat :=
  match p with
  | overdue => 3
  | urgent => 2
  | medium => 1
  | low => 0
  end.

(** The palette of the category bars ([Analytics.tsx],
    [getColorForCategory]). *)
Module AnalyticsSummary.

Definition colors : list string :=
  ["bg-blue-500"; "bg-green-500"; "bg-yellow-500"; "bg-red-500";
   "bg-purple-500"; "bg-pink-500"; "bg-indigo-500"; "bg-orange-500";
   "bg-teal-500"; "bg-gray-500"]%string.

(** [colors[index % colors.length]]; [None] is [undefined]. *)
Definition getColorForCategory (index : nat) : option string :=
  nth_error colors (index mod length colors).

End AnalyticsSummary.

(** The month figures of the dashboard ([Dashboard.tsx]). *)
Module Dashboard.

Section WithBuiltins.
Variable js : Builtins.

Definition thisMonth (now : Z) : string :=
  substring 0 7 (toISOString js now).

Definition monthlyTransactions (now : Z) (transactions : list Transaction.t)
  : list Transaction.t :=
  filter (fun t => String.prefix (thisMonth now) (Transaction.date t))
         transactions.

Definition monthlyIncome (now : Z) (transactions : list Transaction.t) : Q :=
  fold_left (fun sum t => sum + Transaction.amount_cad t)
    (filter (fun t => TransactionType_eqb (Transaction.type t) income)
            (monthlyTransactions now transactions)) 0.

Definition monthlyExpenses (now : Z) (transactions : list Transaction.t) : Q :=
  fold_left (fun sum t => sum + Transaction.amount_cad t)
    (filter (fun t => TransactionType_eqb (Transaction.type t) expense)
            (monthlyTransactions now transactions)) 0.

End WithBuiltins.
End Dashboard.

(** The rows of the CSV export ([exportToCSV] of the transaction history
    and the CSV branch of [exportData] in the settings build the same
    rows). *)
Module Csv.

(** [s.split(c)] for a one-character separator. *)
Fixpoint split (c : ascii) (s : string) : list string :=
  match s with
  | EmptyString => [EmptyString]
  | String a rest =>
      if Ascii.eqb a c then EmptyString :: split c rest
      else
        match split c rest with
        | field :: fields => String a field :: fields
        | [] => [String a EmptyString]
        end
  end.


(** The double quote that the row puts around a description. *)
Definition quote : string := String (ascii_of_nat 34) EmptyString.


(** The text of a transaction type inside [join]. *)
Definition type_text (type : TransactionType) : string :=
  match type with
  | income => "income"
  | expense => "expense"
  end.

Section WithBuiltins.
Variable js : Builtins.

(** The six fields of a transaction's row. *)
Definition fields (t : Transaction.t) : list string :=
  [Transaction.date t;
   type_text (Transaction.type t);
   Transaction.category t;
   (quote ++ Transaction.description t ++ quote)%string;
   Number_toString js (Transaction.amount_cad t);
   Number_toString js (Transaction.amount_inr t)].




End WithBuiltins.
End Csv.

(* ================================================================= *)
(** ** Vocabulary for the handlers *)

(** A new-debt form that passes the validation of [handleAddDebt]. *)
Definition valid_new_debt (js : Builtins) (form : NewDebt.t) (amountCad : Q)
  : Prop :=
  falsy (NewDebt.person_name form) = false
  /\ falsy (NewDebt.amount form) = false
  /\ falsy (NewDebt.purpose form) = false
  /\ parseFloat js (NewDebt.amount form) = Some amountCad
  /\ 0 < amountCad.

(** A payment form that [handlePayment] accepts for the selected debt. *)
Definition accepted_payment (js : Builtins) (st : DebtManager.State)
    (selected : Debt.t) (paymentAmount : Q) : Prop :=
  DebtManager.selectedDebt st = Some selected
  /\ falsy (Payment.amount (DebtManager.payment st)) = false
  /\ parseFloat js (Payment.amount (DebtManager.payment st))
     = Some paymentAmount
  /\ 0 < paymentAmount
  /\ paymentAmount <= Debt.remaining_amount_cad selected.

(* ================================================================= *)
(** ** Scenarios

    Worlds around the sample data: a store that refuses the next request,
    one that takes a request and refuses the following one, a session with
    nobody signed in, a user who confirms the next prompt, and a store that
    holds the sample ledger. *)

Module Scenario.

Definition refusing : World :=
  mkWorld (store Sample.world) [] [false] [] [] []
          Sample.today "k3x9q2m1z" (Some Sample.owner).

Definition half_refusing : World :=
  mkWorld (store Sample.world) [] [true; false] [] [] []
          Sample.today "k3x9q2m1z" (Some Sample.owner).

Definition signed_out : World :=
  mkWorld (store Sample.world) [] [] [] [] []
          Sample.today "k3x9q2m1z" None.

Definition confirming : World :=
  mkWorld (db.mkStore Sample.ledger [Sample.debt] [] [] [Sample.grant])
          [] [] [] [] [true]
          Sample.today "k3x9q2m1z" (Some Sample.owner).

(** The debt of 200 that the sample form creates, and that debt paid in
    full. *)
Definition created : Debt.t :=
  DebtManager.new_debt Host.js (DebtManager.newDebt Sample.adding) 200
    Sample.today "k3x9q2m1z" Sample.owner.

Definition settled : Debt.t :=
  DebtManager.updatedDebt Host.js created 200 Sample.today.

(** The debt manager with [debt] selected and [amount] typed. *)
Definition paying (debt : Debt.t) (amount : string) : DebtManager.State :=
  DebtManager.mkState [] false false true (Some debt)
    DebtManager.empty_form (Payment.mk amount EmptyString).

(** The sample debt with another due date. *)
Definition due_on (date : string) : Debt.t :=
  Debt.mk "debt_2" "user_1" owe "Alex" 100 6150 100 6150 61.5 "rent"
    (Some date) "0" 0
    "2024-01-01T00:00:00.000Z" "2024-01-01T00:00:00.000Z".

Definition history : TransactionHistory.State :=
  TransactionHistory.mkState Sample.ledger false.

End Scenario.

(* ================================================================= *)
(** ** Comparisons and the request log *)

Lemma leb_true_iff (a b : Q) : leb a b = true <-> a <= b.
Proof. apply Qle_bool_iff. Qed.

Lemma leb_false_iff (a b : Q) : leb a b = false <-> b < a.
Proof.
  unfold leb. split; intro H.
  - apply Qnot_le_lt. intro L. apply Qle_bool_iff in L. congruence.
  - destruct (Qle_bool a b) eqn:E; auto. apply Qle_bool_iff in E. lra.
Qed.

Lemma gtb_true_iff (a b : Q) : gtb a b = true <-> b < a.
Proof. unfold gtb. rewrite negb_true_iff. apply leb_false_iff. Qed.

Lemma gtb_false_iff (a b : Q) : gtb a b = false <-> a <= b.
Proof. unfold gtb. rewrite negb_false_iff. apply leb_true_iff. Qed.

Lemma app_self_nil {A} (l r : list A) : l = l ++ r -> r = [].
Proof.
  intro H. rewrite <- (app_nil_r l) in H at 1. apply app_inv_head in H. auto.
Qed.

(** From [requests after = requests before ++ rest], what [rest] is. *)
Ltac sent_is H rest :=
  rewrite <- ?app_assoc in H;
  first [apply app_self_nil in H | apply app_inv_head in H];
  subst rest.

Ltac unfold_eff :=
  unfold after, try_catch, bind, ret, throw, toast, toast_error, confirm,
    Date_now, Math_random, the_user,
    blink_db_transactions_list, blink_db_transactions_delete,
    blink_db_debts_list, blink_db_debts_create, blink_db_debts_update,
    blink_db_debts_delete, blink_db_debt_payments_create,
    blink_db_user_preferences_list, blink_db_user_preferences_create,
    blink_db_family_access_list, blink_db_family_access_create,
    blink_db_family_access_delete, send, reply in *.

(** The outcome of the next three requests, case by case. *)
Ltac split_replies rp :=
  destruct rp as [|[|] [|[|] [|[|] ?]]].

(** A handler that only shows a toast sends nothing. *)
Ltac nothing_sent H rest Hin :=
  unfold_eff; cbn in H; sent_is H rest; destruct Hin.

(* ================================================================= *)
(** ** Recording a payment *)

Section Payments.
Variable js : Builtins.

(** The accepted path of [handlePayment]: the two writes and the reload,
    and what the remote store holds afterwards. *)
Lemma handlePayment_accepts st w selected paymentAmount u :
  DebtManager.selectedDebt st = Some selected ->
  falsy (Payment.amount (DebtManager.payment st)) = false ->
  parseFloat js (Payment.amount (DebtManager.payment st)) = Some paymentAmount ->
  0 < paymentAmount ->
  paymentAmount <= Debt.remaining_amount_cad selected ->
  user w = Some u -> reply 0 w = true -> reply 1 w = true ->
  let updated := DebtManager.updatedDebt js selected paymentAmount (clock w) in
  let record :=
    DebtManager.paymentRecord js selected paymentAmount
      (Payment.notes (DebtManager.payment st)) (clock w) (entropy w) u in
  let w' := after (DebtManager.handlePayment js st) w in
  requests w' =
    requests w ++ [db.debt_payments_create record;
                   db.debts_update (Debt.id selected) updated;
                   db.debts_list (User.id u)]
  /\ db.debts (store w') =
       map (fun x => if String.eqb (Debt.id x) (Debt.id selected)
                     then updated else x)
           (db.debts (store w))
  /\ db.debt_payments (store w') = db.debt_payments (store w) ++ [record].
Proof.
  intros Hs Hf Hp Hpos Hle Hu H0 H1.
  unfold DebtManager.handlePayment, DebtManager.loadDebts.
  rewrite Hs, Hf, Hp.
  apply leb_false_iff in Hpos. rewrite Hpos.
  apply gtb_false_iff in Hle. rewrite Hle.
  destruct w as [s rq rp ts ps an ck en us]. cbn in Hu. subst us.
  unfold_eff.
  split_replies rp; cbn in *; try discriminate;
    rewrite <- ?app_assoc; repeat split; reflexivity.
Qed.

(** Every update of a debt that [handlePayment] sends carries the
    [updatedDebt] of the selected debt, for an accepted amount. *)
Lemma handlePayment_sends st w id d :
  sends (DebtManager.handlePayment js st) w (db.debts_update id d) ->
  exists selected paymentAmount,
    DebtManager.selectedDebt st = Some selected
    /\ parseFloat js (Payment.amount (DebtManager.payment st))
       = Some paymentAmount
    /\ 0 < paymentAmount
    /\ paymentAmount <= Debt.remaining_amount_cad selected
    /\ id = Debt.id selected
    /\ d = DebtManager.updatedDebt js selected paymentAmount (clock w).
Proof.
  intros [rest [Hreq Hin]].
  unfold DebtManager.handlePayment, DebtManager.loadDebts in Hreq.
  destruct (DebtManager.selectedDebt st) as [selected|] eqn:Hs;
    [|nothing_sent Hreq rest Hin].
  destruct (falsy _) eqn:Hf; [nothing_sent Hreq rest Hin|].
  destruct (parseFloat _ _) as [a|] eqn:Hp; [|nothing_sent Hreq rest Hin].
  destruct (leb a 0) eqn:Hpos; [nothing_sent Hreq rest Hin|].
  destruct (gtb _ _) eqn:Hle; [nothing_sent Hreq rest Hin|].
  apply leb_false_iff in Hpos. apply gtb_false_iff in Hle.
  exists selected, a. repeat split; auto.
  all: destruct w as [s rq rp ts ps an ck en [u|]]; unfold_eff;
    split_replies rp; cbn in Hreq; sent_is Hreq rest; cbn in Hin;
    repeat (destruct Hin as [Hin|Hin]; try discriminate;
            try (injection Hin as <- <-; reflexivity));
    try contradiction.
Qed.

(** C1.  For a selected debt and a typed amount that reads as a positive
    number at most what remains of the debt, the debt that [handlePayment]
    writes back has: what remained minus the payment as its remaining
    amount; that new remaining amount times the exchange rate as its
    remaining secondary amount; and the paid flag set exactly when the new
    remaining amount is at most zero.  No other update is sent; the update
    is sent as soon as the user is signed in and the remote store has taken
    the payment record, and when the store takes the update too, the debt
    of that id is replaced by it. *)
Theorem applyPayment_effect st w selected paymentAmount :
  DebtManager.selectedDebt st = Some selected ->
  falsy (Payment.amount (DebtManager.payment st)) = false ->
  parseFloat js (Payment.amount (DebtManager.payment st)) = Some paymentAmount ->
  0 < paymentAmount ->
  paymentAmount <= Debt.remaining_amount_cad selected ->
  let run := DebtManager.handlePayment js st in
  let newRemaining := Debt.remaining_amount_cad selected - paymentAmount in
  exists updated,
    Debt.remaining_amount_cad updated = newRemaining
    /\ Debt.remaining_amount_inr updated
       = newRemaining * DebtManager.exchangeRate
    /\ (Debt.is_paid updated = "1"%string <-> newRemaining <= 0)
    /\ (Debt.is_paid updated = "0"%string <-> 0 < newRemaining)
    /\ (forall id d,
          sends run w (db.debts_update id d) ->
          id = Debt.id selected /\ d = updated)
    /\ (forall u,
          user w = Some u -> reply 0 w = true ->
          sends run w (db.debts_update (Debt.id selected) updated)
          /\ (reply 1 w = true ->
              db.debts (store (after run w)) =
                map (fun x => if String.eqb (Debt.id x) (Debt.id selected)
                              then updated else x)
                    (db.debts (store w)))).
Proof.
  intros Hs Hf Hp Hpos Hle run newRemaining.
  exists (DebtManager.updatedDebt js selected paymentAmount (clock w)).
  cbn [DebtManager.updatedDebt Debt.remaining_amount_cad
       Debt.remaining_amount_inr Debt.is_paid].
  fold newRemaining.
  split; [reflexivity|]. split; [reflexivity|].
  split; [|split; [|split]].
  - destruct (leb newRemaining 0) eqn:E.
    + apply leb_true_iff in E. tauto.
    + split; [discriminate|]. intro H. apply leb_true_iff in H. congruence.
  - destruct (leb newRemaining 0) eqn:E.
    + apply leb_true_iff in E. split; [discriminate|]. intro H. lra.
    + apply leb_false_iff in E. tauto.
  - intros id d Hsent.
    destruct (handlePayment_sends st w id d Hsent)
      as [sd [a [Hs' [Hp' [_ [_ [-> ->]]]]]]].
    rewrite Hs in Hs'. injection Hs' as <-.
    rewrite Hp in Hp'. injection Hp' as <-.
    split; reflexivity.
  - intros u Hu H0.
    assert (Hsent : sends run w
                      (db.debts_update (Debt.id selected)
                         (DebtManager.updatedDebt js selected paymentAmount
                            (clock w)))).
    { unfold sends, run, DebtManager.handlePayment, DebtManager.loadDebts.
      rewrite Hs, Hf, Hp.
      apply leb_false_iff in Hpos. rewrite Hpos.
      apply gtb_false_iff in Hle. rewrite Hle.
      destruct w as [s rq rp ts ps an ck en us]. cbn in Hu. subst us.
      unfold_eff.
      split_replies rp; cbn in *; try discriminate;
        rewrite <- ?app_assoc; eexists; (split; [reflexivity|]);
        right; left; reflexivity. }
    split; [exact Hsent|].
    intro H1.
    destruct (handlePayment_accepts st w selected paymentAmount u
                Hs Hf Hp Hpos Hle Hu H0 H1) as [_ [Hdebts _]].
    exact Hdebts.
Qed.

(** C2.  When the amount typed for the selected debt does not read as a
    number, is not positive, or exceeds what remains of the debt, the
    handler shows one validation error and stops: it returns the state it
    was given, sends no request, and leaves the remote store, so both the
    debt and the payment collection, as they were. *)
Theorem applyPayment_rejects st w selected :
  DebtManager.selectedDebt st = Some selected ->
  refused_amount js selected (Payment.amount (DebtManager.payment st)) ->
  (exists message,
      DebtManager.handlePayment js st w
      = (Returned st, with_toasts (toasts w ++ [mkToast true message]) w))
  /\ requests (after (DebtManager.handlePayment js st) w) = requests w
  /\ store (after (DebtManager.handlePayment js st) w) = store w.
Proof.
  intros Hs Hr. unfold refused_amount in Hr.
  unfold DebtManager.handlePayment, after. rewrite Hs.
  destruct (falsy _); [split; [eexists|split]; reflexivity|].
  destruct (parseFloat _ _) as [a|];
    [|split; [eexists|split]; reflexivity].
  destruct Hr as [Hr|Hr].
  - apply leb_true_iff in Hr. rewrite Hr.
    split; [eexists|split]; reflexivity.
  - destruct (leb a 0); [split; [eexists|split]; reflexivity|].
    apply gtb_true_iff in Hr. rewrite Hr.
    split; [eexists|split]; reflexivity.
Qed.

(** C9.  Whatever debt [handlePayment] writes back for the selected debt,
    it carries the selected debt's id, owner, direction, counterparty,
    total amounts, exchange rate, purpose, due date, priority score and
    creation time; only the remaining amounts, the paid flag and the
    update time are new. *)
Theorem applyPayment_frame st w selected id updated :
  DebtManager.selectedDebt st = Some selected ->
  sends (DebtManager.handlePayment js st) w (db.debts_update id updated) ->
  Debt.id updated = Debt.id selected
  /\ Debt.user_id updated = Debt.user_id selected
  /\ Debt.type updated = Debt.type selected
  /\ Debt.person_name updated = Debt.person_name selected
  /\ Debt.total_amount_cad updated = Debt.total_amount_cad selected
  /\ Debt.total_amount_inr updated = Debt.total_amount_inr selected
  /\ Debt.exchange_rate updated = Debt.exchange_rate selected
  /\ Debt.purpose updated = Debt.purpose selected
  /\ Debt.due_date updated = Debt.due_date selected
  /\ Debt.priority_score updated = Debt.priority_score selected
  /\ Debt.created_at updated = Debt.created_at selected.
Proof.
  intros Hs Hsent.
  destruct (handlePayment_sends st w id updated Hsent)
    as [sd [a [Hs' [_ [_ [_ [_ ->]]]]]]].
  rewrite Hs in Hs'. injection Hs' as <-.
  repeat split; reflexivity.
Qed.

End Payments.

(* ================================================================= *)
(** ** Adding a debt, and the invariant of the debts written *)

Section Debts.
Variable js : Builtins.

(** Every debt that [handleAddDebt] creates is the [new_debt] of the form,
    for an amount that reads as a positive number. *)
Lemma handleAddDebt_sends st w d :
  sends (DebtManager.handleAddDebt js st) w (db.debts_create d) ->
  exists amountCad u,
    parseFloat js (NewDebt.amount (DebtManager.newDebt st)) = Some amountCad
    /\ 0 < amountCad
    /\ d = DebtManager.new_debt js (DebtManager.newDebt st) amountCad
             (clock w) (entropy w) u.
Proof.
  intros [rest [Hreq Hin]].
  unfold DebtManager.handleAddDebt, DebtManager.loadDebts in Hreq.
  destruct (_ || _)%bool; [nothing_sent Hreq rest Hin|].
  destruct (parseFloat _ _) as [a|] eqn:Hp; [|nothing_sent Hreq rest Hin].
  destruct (leb a 0) eqn:Hpos; [nothing_sent Hreq rest Hin|].
  apply leb_false_iff in Hpos.
  destruct w as [s rq rp ts ps an ck en [u|]]; unfold_eff;
    [exists a, u | exists a, (User.mk EmptyString EmptyString None)];
    (repeat split; auto);
    split_replies rp; cbn in Hreq; sent_is Hreq rest; cbn in Hin;
    repeat (destruct Hin as [Hin|Hin]; try discriminate;
            try (injection Hin as <-; reflexivity));
    try contradiction.
Qed.

Lemma new_debt_invariant form amountCad now rnd u :
  0 < amountCad ->
  debt_invariant (DebtManager.new_debt js form amountCad now rnd u).
Proof.
  intro Hpos. unfold debt_invariant. cbn.
  split; [lra|split; [lra|split; [discriminate|intro H; lra]]].
Qed.

Lemma updatedDebt_invariant selected paymentAmount now :
  debt_invariant selected ->
  0 < paymentAmount ->
  paymentAmount <= Debt.remaining_amount_cad selected ->
  debt_invariant (DebtManager.updatedDebt js selected paymentAmount now).
Proof.
  intros [H0 [Hle _]] Hpos Hpay. unfold debt_invariant. cbn.
  split; [lra|split; [lra|split]].
  - destruct (leb _ 0) eqn:E; [intros _|discriminate].
    now apply leb_true_iff.
  - intro H. apply leb_true_iff in H. now rewrite H.
Qed.

Lemma produced_priority_score d :
  produced js d -> Debt.priority_score d = 0.
Proof.
  induction 1 as [st w d Hsent | st w selected id d Hs Hprod IH Hsent].
  - destruct (handleAddDebt_sends st w d Hsent) as [a [u [_ [_ ->]]]].
    reflexivity.
  - destruct (handlePayment_sends js st w id d Hsent)
      as [sd [a [Hs' [_ [_ [_ [_ ->]]]]]]].
    rewrite Hs in Hs'. injection Hs' as <-. exact IH.
Qed.

(** C4.  Every debt the application writes to the remote store, whether
    created by [handleAddDebt] or written back by [handlePayment] for a
    debt that the application wrote, has a remaining amount between zero
    and its total, has its paid flag set exactly when the remaining amount
    is at most zero, and has priority score 0; a debt just created has its
    remaining amount equal to its total and is not paid. *)
Theorem debt_invariant_holds d :
  produced js d ->
  debt_invariant d
  /\ Debt.priority_score d = 0
  /\ (forall st w,
        sends (DebtManager.handleAddDebt js st) w (db.debts_create d) ->
        Debt.remaining_amount_cad d = Debt.total_amount_cad d
        /\ Debt.is_paid d = "0"%string).
Proof.
  intro Hprod. split; [|split].
  - induction Hprod as [st w d Hsent | st w selected id d Hs Hprod IH Hsent].
    + destruct (handleAddDebt_sends st w d Hsent) as [a [u [_ [Hpos ->]]]].
      now apply new_debt_invariant.
    + destruct (handlePayment_sends js st w id d Hsent)
        as [sd [a [Hs' [_ [Hpos [Hle [_ ->]]]]]]].
      rewrite Hs in Hs'. injection Hs' as <-.
      now apply updatedDebt_invariant.
  - now apply produced_priority_score.
  - intros st w Hsent.
    destruct (handleAddDebt_sends st w d Hsent) as [a [u [_ [_ ->]]]].
    split; reflexivity.
Qed.

End Debts.

(* ================================================================= *)
(** ** Urgency bands *)

Section Urgency.
Variable js : Builtins.

(** [Math.ceil(diffTime / day)] is the least whole number of days that
    covers [diffTime]. *)
Lemma ceiling_of_days (diffTime : Z) :
  let days := Qceiling (inject_Z diffTime / inject_Z DebtManager.ms_per_day) in
  (DebtManager.ms_per_day * (days - 1) < diffTime
   <= DebtManager.ms_per_day * days)%Z.
Proof.
  assert (Hday : (0 < DebtManager.ms_per_day)%Z) by reflexivity.
  set (m := DebtManager.ms_per_day) in *.
  assert (E : Qceiling (inject_Z diffTime / inject_Z m)
              = (- ((- diffTime) / m))%Z).
  { unfold Qceiling. f_equal. rewrite Zdiv_Qdiv. apply Qfloor_comp.
    rewrite inject_Z_opp. field.
    intro H. vm_compute in H. discriminate. }
  cbv zeta. rewrite E.
  pose proof (Z.div_mod (- diffTime) m ltac:(lia)) as Hdm.
  pose proof (Z.mod_pos_bound (- diffTime) m Hday) as Hb.
  nia.
Qed.

Lemma getDaysUntilDue_ceiling today dueDate due :
  Date_getTime js dueDate = Some due ->
  exists days,
    DebtManager.getDaysUntilDue js today dueDate = Some days
    /\ days = Qceiling (inject_Z (due - today)
                        / inject_Z DebtManager.ms_per_day)
    /\ (DebtManager.ms_per_day * (days - 1) < due - today
        <= DebtManager.ms_per_day * days)%Z.
Proof.
  intro Hd. unfold DebtManager.getDaysUntilDue. rewrite Hd.
  eexists. split; [reflexivity|]. split; [reflexivity|].
  apply ceiling_of_days.
Qed.

(** C3.  A debt without a due date is [low].  A debt with a due date that
    the host reads as the time [due] is classified by
    [daysUntilDue = ceil((due - today) / 1 day)], the least whole number of
    days covering the difference: [overdue] below 0, [urgent] from 0 to 7,
    [medium] from 8 to 30, [low] above 30; so exactly 7 days is urgent and
    exactly 30 days is medium.  A due date that does not read as a time
    falls in none of the bands and is [low]. *)
Theorem classify_bands today debt :
  let priority := DebtManager.getPriorityLevel js today debt in
  (Debt.due_date debt = None -> priority = low)
  /\ (Debt.due_date debt = Some EmptyString -> priority = low)
  /\ (forall dueDate,
        Debt.due_date debt = Some dueDate ->
        Date_getTime js dueDate = None -> priority = low)
  /\ (forall dueDate due,
        Debt.due_date debt = Some dueDate ->
        falsy dueDate = false ->
        Date_getTime js dueDate = Some due ->
        let daysUntilDue :=
          Qceiling (inject_Z (due - today)
                    / inject_Z (1000 * 60 * 60 * 24)) in
        DebtManager.getDaysUntilDue js today dueDate = Some daysUntilDue
        /\ (86400000 * (daysUntilDue - 1) < due - today
            <= 86400000 * daysUntilDue)%Z
        /\ ((daysUntilDue < 0)%Z -> priority = overdue)
        /\ ((0 <= daysUntilDue <= 7)%Z -> priority = urgent)
        /\ ((8 <= daysUntilDue <= 30)%Z -> priority = medium)
        /\ ((30 < daysUntilDue)%Z -> priority = low)).
Proof.
  cbv zeta. unfold DebtManager.getPriorityLevel.
  split; [|split; [|split]].
  - intros ->. reflexivity.
  - intros ->. reflexivity.
  - intros dueDate -> Hnan. unfold DebtManager.getDaysUntilDue.
    rewrite Hnan. now destruct (falsy dueDate).
  - intros dueDate due -> Hf Hdue. rewrite Hf.
    destruct (getDaysUntilDue_ceiling today dueDate due Hdue)
      as [days [Hdays [Eq Hbounds]]].
    change (inject_Z (1000 * 60 * 60 * 24))
      with (inject_Z DebtManager.ms_per_day).
    rewrite <- Eq, Hdays.
    split; [reflexivity|]. split; [exact Hbounds|].
    repeat split; intro H.
    + assert (E : (days <? 0)%Z = true) by (apply Z.ltb_lt; lia).
      now rewrite E.
    + assert (E : (days <? 0)%Z = false) by (apply Z.ltb_ge; lia).
      assert (E' : (days <=? 7)%Z = true) by (apply Z.leb_le; lia).
      now rewrite E, E'.
    + assert (E : (days <? 0)%Z = false) by (apply Z.ltb_ge; lia).
      assert (E' : (days <=? 7)%Z = false) by (apply Z.leb_gt; lia).
      assert (E'' : (days <=? 30)%Z = true) by (apply Z.leb_le; lia).
      now rewrite E, E', E''.
    + assert (E : (days <? 0)%Z = false) by (apply Z.ltb_ge; lia).
      assert (E' : (days <=? 7)%Z = false) by (apply Z.leb_gt; lia).
      assert (E'' : (days <=? 30)%Z = false) by (apply Z.leb_gt; lia).
      now rewrite E, E', E''.
Qed.

End Urgency.

(* ================================================================= *)
(** ** Deleting *)

(** C8, on the code: deleting a debt sends the delete request without
    showing any confirmation prompt, whatever the user would answer. *)
Theorem deleteDebt_asks_nothing debtId st w :
  prompts (after (DebtManager.deleteDebt debtId st) w) = prompts w
  /\ sends (DebtManager.deleteDebt debtId st) w (db.debts_delete debtId).
Proof.
  unfold sends, DebtManager.deleteDebt, DebtManager.loadDebts.
  destruct w as [s rq rp ts ps an ck en [u|]]; unfold_eff;
    split_replies rp; cbn; (split; [reflexivity|]);
    rewrite <- ?app_assoc; eexists; (split; [reflexivity|]);
    left; reflexivity.
Qed.

(** The sibling handlers ask first: without a confirmation, removing a
    family member or deleting a transaction shows the prompt and sends
    nothing. *)
Lemma removeFamilyMember_asks memberId memberEmail st w :
  hd false (answers w) = false ->
  let w' := after (FamilySharing.removeFamilyMember memberId memberEmail st) w in
  requests w' = requests w
  /\ store w' = store w
  /\ exists message, prompts w' = prompts w ++ [message].
Proof.
  intro Hno. unfold FamilySharing.removeFamilyMember.
  destruct w as [s rq rp ts ps [|[|] an] ck en us]; try discriminate;
    unfold_eff; cbn; repeat split; eexists; reflexivity.
Qed.

Lemma handleDeleteTransaction_asks transactionId st w :
  hd false (answers w) = false ->
  let w' :=
    after (TransactionHistory.handleDeleteTransaction transactionId st) w in
  requests w' = requests w
  /\ store w' = store w
  /\ exists message, prompts w' = prompts w ++ [message].
Proof.
  intro Hno. unfold TransactionHistory.handleDeleteTransaction.
  destruct w as [s rq rp ts ps [|[|] an] ck en us]; try discriminate;
    unfold_eff; cbn; repeat split; eexists; reflexivity.
Qed.

(* ================================================================= *)
(** ** Preferences *)

Section Preferences.
Variable js : Builtins.

(** C7.  With a signed-in user and a remote store that answers the query:
    when the store holds no preferences record of the user, loading sends
    exactly one create request, for a record of that user with currency
    CAD, theme light and rate 61.5, and once the store has answered it
    holds that one record more and the component keeps it; when the store
    holds a record of the user, the first one is kept by the component,
    nothing is created and the store is as it was. *)
Theorem loadPreferences_lazy st w u :
  user w = Some u -> reply 0 w = true ->
  let run := Settings.loadPreferences js st in
  let w' := after run w in
  match filter (fun p => String.eqb (UserPreferences.user_id p) (User.id u))
               (db.user_preferences (store w)) with
  | [] =>
      let created := Settings.defaultPrefs js (clock w) (entropy w) u in
      requests w' =
        requests w ++ [db.user_preferences_list (User.id u);
                       db.user_preferences_create created]
      /\ UserPreferences.user_id created = User.id u
      /\ UserPreferences.default_currency created = CAD
      /\ UserPreferences.theme created = light
      /\ UserPreferences.exchange_rate_cad_to_inr created = 61.5
      /\ (reply 1 w = true ->
          db.user_preferences (store w')
          = db.user_preferences (store w) ++ [created]
          /\ exists st', fst (run w) = Returned st'
                         /\ Settings.preferences st' = Some created)
  | existing :: _ =>
      requests w' = requests w ++ [db.user_preferences_list (User.id u)]
      /\ store w' = store w
      /\ exists st', fst (run w) = Returned st'
                     /\ Settings.preferences st' = Some existing
  end.
Proof.
  intros Hu H0. cbv zeta.
  destruct w as [s rq rp ts ps an ck en us]. cbn in Hu. subst us.
  unfold Settings.loadPreferences. unfold_eff. cbn in *. rewrite H0. cbn.
  destruct (filter _ _) as [|existing others]; cbn.
  - destruct rp as [|b0 [|[|] rp]]; cbn in *; rewrite <- ?app_assoc;
      repeat split; try discriminate; eauto.
  - repeat split. eexists. split; reflexivity.
Qed.

End Preferences.

(* ================================================================= *)
(** ** Family sharing *)

Section Sharing.
Variable js : Builtins.

(** Every grant that [addFamilyMember] creates is the [new_member] of the
    typed address. *)
Lemma addFamilyMember_sends st w f :
  sends (FamilySharing.addFamilyMember js st) w (db.family_access_create f) ->
  exists u,
    f = FamilySharing.new_member js (FamilySharing.newMemberEmail st)
          (clock w) (entropy w) u.
Proof.
  intros [rest [Hreq Hin]].
  unfold FamilySharing.addFamilyMember, FamilySharing.loadFamilyMembers,
    FamilySharing.is_own_email in Hreq.
  destruct (_ || _)%bool; [nothing_sent Hreq rest Hin|].
  destruct w as [s rq rp ts ps an ck en [u|]]; unfold_eff; cbn in Hreq.
  - destruct (String.eqb _ (User.email u));
      [cbn in Hreq; sent_is Hreq rest; destruct Hin|].
    destruct (find _ _);
      [cbn in Hreq; sent_is Hreq rest; destruct Hin|].
    exists u.
    split_replies rp; cbn in Hreq; sent_is Hreq rest; cbn in Hin;
      repeat (destruct Hin as [Hin|Hin]; try discriminate;
              try (injection Hin as <-; reflexivity));
      try contradiction.
  - destruct (find _ _);
      cbn in Hreq; sent_is Hreq rest; destruct Hin.
Qed.

(** C10.  An address without an at-sign, the signed-in user's own address,
    or the address of a member already listed is refused: one error is
    shown, the state is returned as it was, no request is sent and the
    remote store is untouched.  Every grant that is created has access
    level [view] and is active. *)
Theorem addFamilyMember_guards st w :
  let email := FamilySharing.newMemberEmail st in
  let run := FamilySharing.addFamilyMember js st in
  (includes "@" email = false
   \/ (exists u, user w = Some u /\ User.email u = email)
   \/ (exists m, In m (FamilySharing.familyMembers st)
                 /\ FamilyAccess.member_email m = email) ->
   (exists message,
       run w = (Returned st, with_toasts (toasts w ++ [mkToast true message]) w))
   /\ requests (after run w) = requests w
   /\ store (after run w) = store w)
  /\ (forall f,
        sends run w (db.family_access_create f) ->
        FamilyAccess.access_level f = view
        /\ FamilyAccess.is_active f = "1"%string
        /\ FamilyAccess.member_email f = email).
Proof.
  cbv zeta. split.
  - intro Hbad.
    assert (H : exists message,
               FamilySharing.addFamilyMember js st w
               = (Returned st,
                  with_toasts (toasts w ++ [mkToast true message]) w)).
    { unfold FamilySharing.addFamilyMember.
      destruct (falsy _ || negb (includes "@" _))%bool eqn:Hat;
        [eexists; reflexivity|].
      apply orb_false_iff in Hat. destruct Hat as [_ Hat].
      apply negb_false_iff in Hat.
      unfold bind at 1. unfold FamilySharing.is_own_email.
      destruct Hbad as [Hno | [[u [Hu He]] | [m [Hin He]]]].
      - congruence.
      - rewrite Hu, He, String.eqb_refl. eexists; reflexivity.
      - destruct (match user w with Some _ => _ | None => _ end);
          [eexists; reflexivity|].
        destruct (find _ _) eqn:Hfind; [eexists; reflexivity|].
        apply (find_none _ _ Hfind) in Hin. cbn in Hin.
        rewrite He, String.eqb_refl in Hin. discriminate. }
    destruct H as [message H]. unfold after. rewrite H.
    split; [eexists|split]; reflexivity.
  - intros f Hsent. destruct (addFamilyMember_sends st w f Hsent) as [u ->].
    repeat split; reflexivity.
Qed.

End Sharing.

(* ================================================================= *)
(** ** Maps in insertion order *)

Section MapFacts.
Context {V : Type}.

Lemma Map_get_set_same (k : string) (v : V) (m : Map.t V) :
  Map.get k (Map.set k v m) = Some v.
Proof.
  induction m as [|[k' v'] m IH]; cbn.
  - now rewrite String.eqb_refl.
  - destruct (String.eqb k' k) eqn:E; cbn; rewrite E; auto.
Qed.

Lemma Map_get_set_other (k k' : string) (v : V) (m : Map.t V) :
  k' <> k -> Map.get k' (Map.set k v m) = Map.get k' m.
Proof.
  intro Hne. induction m as [|[k0 v0] m IH]; cbn.
  - destruct (String.eqb_spec k k'); congruence.
  - destruct (String.eqb_spec k0 k); cbn.
    + subst k0. destruct (String.eqb_spec k k'); congruence.
    + destruct (String.eqb_spec k0 k'); auto.
Qed.

Lemma Map_keys_set (k : string) (v : V) (m : Map.t V) :
  map fst (Map.set k v m)
  = if existsb (fun k' => String.eqb k' k) (map fst m)
    then map fst m else map fst m ++ [k].
Proof.
  induction m as [|[k' v'] m IH]; cbn; auto.
  destruct (String.eqb k' k) eqn:E; cbn; auto.
  rewrite IH. now destruct (existsb _ _).
Qed.

Lemma Map_NoDup_set (k : string) (v : V) (m : Map.t V) :
  NoDup (map fst m) -> NoDup (map fst (Map.set k v m)).
Proof.
  intro Hnd. rewrite Map_keys_set.
  destruct (existsb _ _) eqn:E; auto.
  apply NoDup_app; auto.
  - repeat constructor. intros [].
  - intros x Hx [->|[]].
    assert (H : existsb (fun k' => String.eqb k' x) (map fst m) = true).
    { apply existsb_exists. exists x. split; auto. apply String.eqb_refl. }
    congruence.
Qed.

Lemma Map_get_In (k : string) (v : V) (m : Map.t V) :
  Map.get k m = Some v -> In (k, v) m.
Proof.
  induction m as [|[k' v'] m IH]; cbn; [discriminate|].
  destruct (String.eqb_spec k' k).
  - intros [= <-]. subst. now left.
  - intro H. right. auto.
Qed.

Lemma Map_In_get (k : string) (v : V) (m : Map.t V) :
  NoDup (map fst m) -> In (k, v) m -> Map.get k m = Some v.
Proof.
  induction m as [|[k' v'] m IH]; cbn; [intros _ []|].
  intros Hnd [H|H].
  - injection H as -> ->. now rewrite String.eqb_refl.
  - inversion Hnd as [|? ? Hnin Hnd']; subst.
    destruct (String.eqb_spec k' k).
    + subst k'. exfalso. apply Hnin.
      change k with (fst (k, v)). now apply in_map.
    + auto.
Qed.

End MapFacts.

(* ================================================================= *)
(** ** Grouping by key *)

Section Grouping.
Context {T V : Type}.
Variable key : T -> string.
Variable init : V.
Variable f : V -> T -> V.

Let with_key (k : string) (l : list T) : list T :=
  filter (fun x => String.eqb (key x) k) l.

(** After the loop, the entry of a key is the fold of the elements of that
    key, in their order in the list. *)
Lemma get_fold_upsert (l : list T) (m : Map.t V) (k : string) :
  Map.get k (fold_left (upsert key init f) l m)
  = match with_key k l with
    | [] => Map.get k m
    | x :: rest =>
        Some (fold_left f (x :: rest)
                (match Map.get k m with Some e => e | None => init end))
    end.
Proof.
  revert m. induction l as [|x l IH]; intro m; cbn; auto.
  rewrite IH. unfold with_key in *.
  destruct (String.eqb_spec (key x) k) as [E|E].
  - subst k. unfold upsert at 1 2. rewrite Map_get_set_same.
    now destruct (filter _ l).
  - unfold upsert at 1 2. rewrite Map_get_set_other by congruence.
    reflexivity.
Qed.

Lemma NoDup_fold_upsert (l : list T) (m : Map.t V) :
  NoDup (map fst m) -> NoDup (map fst (fold_left (upsert key init f) l m)).
Proof.
  revert m. induction l as [|x l IH]; intros m Hnd; cbn; auto.
  apply IH. unfold upsert. now apply Map_NoDup_set.
Qed.

(** The entries of the map built from the empty map: their keys are the
    keys that occur in the list, each once, and the value of a key is the
    fold of its elements. *)
Lemma entries_fold_upsert (l : list T) (k : string) (v : V) :
  In (k, v) (Map.entries (fold_left (upsert key init f) l []))
  <-> with_key k l <> [] /\ v = fold_left f (with_key k l) init.
Proof.
  unfold Map.entries.
  pose proof (get_fold_upsert l [] k) as Hget. cbn in Hget.
  pose proof (NoDup_fold_upsert l [] (NoDup_nil _)) as Hnd.
  split.
  - intro Hin. apply (Map_In_get _ _ _ Hnd) in Hin. rewrite Hin in Hget.
    destruct (with_key k l); [discriminate|].
    split; [discriminate|]. now injection Hget.
  - intros [Hne ->]. apply Map_get_In. rewrite Hget.
    now destruct (with_key k l).
Qed.

Lemma with_key_nonempty (l : list T) (k : string) :
  with_key k l <> [] <-> exists x, In x l /\ key x = k.
Proof.
  unfold with_key. split.
  - destruct (filter _ l) as [|x rest] eqn:E; [congruence|]. intros _.
    assert (Hin : In x (filter (fun x => String.eqb (key x) k) l))
      by (rewrite E; now left).
    apply filter_In in Hin. destruct Hin as [Hin Hk].
    exists x. split; auto. now apply String.eqb_eq.
  - intros [x [Hin Hk]] E.
    assert (Hin' : In x (filter (fun x => String.eqb (key x) k) l)).
    { apply filter_In. split; auto. now apply String.eqb_eq. }
    rewrite E in Hin'. destruct Hin'.
Qed.

End Grouping.

(* ================================================================= *)
(** ** Sorting *)

Section Sorting.
Context {A : Type}.
Variable cmp : A -> A -> Q.

Let before (x y : A) : Prop := cmp x y <= 0.

Hypothesis before_total : forall x y, before x y \/ before y x.
Hypothesis before_trans : forall x y z, before x y -> before y z -> before x z.

Lemma insert_Permutation (x : A) (l : list A) :
  Permutation (x :: l) (insert cmp x l).
Proof.
  induction l as [|y l IH]; cbn; auto.
  destruct (leb (cmp x y) 0); auto.
  rewrite perm_swap. now constructor.
Qed.

Lemma Array_sort_Permutation (l : list A) : Permutation l (Array_sort cmp l).
Proof.
  induction l as [|x l IH]; cbn; auto.
  rewrite <- insert_Permutation. now constructor.
Qed.

Lemma insert_sorted (x : A) (l : list A) :
  StronglySorted before l -> StronglySorted before (insert cmp x l).
Proof.
  induction 1 as [|y l Hs IH Hall]; cbn.
  - repeat constructor.
  - destruct (leb (cmp x y) 0) eqn:E.
    + apply leb_true_iff in E. constructor; [now constructor|].
      constructor; auto.
      eapply Forall_impl; [|exact Hall]. intros z Hz. eauto.
    + apply leb_false_iff in E. constructor; auto.
      rewrite <- insert_Permutation. constructor; auto.
      destruct (before_total x y) as [H|H]; auto.
      unfold before in H. lra.
Qed.

Lemma Array_sort_sorted (l : list A) : StronglySorted before (Array_sort cmp l).
Proof.
  induction l as [|x l IH]; cbn; [constructor|].
  now apply insert_sorted.
Qed.

End Sorting.

Lemma Ascii_compare_refl (a : ascii) : Ascii.compare a a = Eq.
Proof. unfold Ascii.compare. apply N.compare_refl. Qed.

Lemma String_compare_le_trans (a b c : string) :
  String.compare a b <> Gt -> String.compare b c <> Gt ->
  String.compare a c <> Gt.
Proof.
  revert b c. induction a as [|x a IH]; intros [|y b] [|z c]; cbn;
    try congruence.
  destruct (Ascii.compare x y) eqn:Hxy; try congruence;
    destruct (Ascii.compare y z) eqn:Hyz; try congruence.
  - apply Ascii.compare_eq_iff in Hxy, Hyz. subst.
    rewrite Ascii_compare_refl. apply IH.
  - apply Ascii.compare_eq_iff in Hxy. subst. rewrite Hyz. congruence.
  - apply Ascii.compare_eq_iff in Hyz. subst. rewrite Hxy. congruence.
  - unfold Ascii.compare in *. rewrite N.compare_lt_iff in Hxy, Hyz.
    assert (H : (N_of_ascii x ?= N_of_ascii z)%N = Lt)
      by (apply N.compare_lt_iff; lia).
    rewrite H. congruence.
Qed.

Lemma localeCompare_le (a b : string) :
  localeCompare a b <= 0 <-> String.leb a b = true.
Proof.
  unfold localeCompare, String.leb.
  destruct (String.compare a b); split; intro H;
    try reflexivity; try discriminate; lra.
Qed.

Lemma localeCompare_total (a b : string) :
  localeCompare a b <= 0 \/ localeCompare b a <= 0.
Proof.
  rewrite !localeCompare_le. apply String.leb_total.
Qed.

Lemma localeCompare_trans (a b c : string) :
  localeCompare a b <= 0 -> localeCompare b c <= 0 -> localeCompare a c <= 0.
Proof.
  rewrite !localeCompare_le. unfold String.leb.
  pose proof (String_compare_le_trans a b c) as H.
  destruct (String.compare a b), (String.compare b c), (String.compare a c);
    try reflexivity; try discriminate; intros; exfalso; apply H; congruence.
Qed.

Lemma StronglySorted_impl {A} (R S : A -> A -> Prop) (l : list A) :
  (forall x y, R x y -> S x y) -> StronglySorted R l -> StronglySorted S l.
Proof.
  intros HRS. induction 1 as [|x l Hs IH Hall]; constructor; auto.
  eapply Forall_impl; [|exact Hall]. auto.
Qed.

(* ================================================================= *)
(** ** Monthly and per-category reports *)

Lemma sum_fold_left (l : list Transaction.t) (a : Q) :
  fold_left (fun sum t => sum + Transaction.amount_cad t) l a
  == a + sum_amount_cad l.
Proof.
  unfold sum_amount_cad.
  revert a. induction l as [|t l IH]; intro a; cbn [fold_left fold_right].
  - lra.
  - rewrite IH. lra.
Qed.

Lemma monthly_step_upsert :
  Analytics.monthly_step = upsert monthKey (MonthlySums.mk 0 0) monthly_add.
Proof. reflexivity. Qed.

Lemma category_step_upsert :
  Analytics.category_step
  = upsert Transaction.category (CategorySums.mk 0 0) category_add.
Proof. reflexivity. Qed.

Lemma monthly_add_fold (l : list Transaction.t) (acc : MonthlySums.t) :
  MonthlySums.income (fold_left monthly_add l acc)
  == MonthlySums.income acc + sum_amount_cad (of_type income l)
  /\ MonthlySums.expenses (fold_left monthly_add l acc)
     == MonthlySums.expenses acc + sum_amount_cad (of_type expense l).
Proof.
  unfold sum_amount_cad, of_type.
  revert acc. induction l as [|t l IH]; intro acc;
    cbn [fold_left fold_right filter].
  - split; lra.
  - destruct (IH (monthly_add acc t)) as [Hi He]. rewrite Hi, He.
    unfold monthly_add.
    destruct (Transaction.type t);
      cbn [TransactionType_eqb fold_right MonthlySums.income
           MonthlySums.expenses];
      split; lra.
Qed.

Lemma category_add_fold (l : list Transaction.t) (acc : CategorySums.t) :
  CategorySums.amount (fold_left category_add l acc)
  == CategorySums.amount acc + sum_amount_cad l
  /\ CategorySums.count (fold_left category_add l acc)
     = (CategorySums.count acc + length l)%nat.
Proof.
  unfold sum_amount_cad.
  revert acc. induction l as [|t l IH]; intro acc;
    cbn [fold_left fold_right length].
  - split; [lra|lia].
  - destruct (IH (category_add acc t)) as [Ha Hc]. rewrite Ha, Hc.
    cbn [category_add CategorySums.amount CategorySums.count].
    split; [lra|lia].
Qed.

Lemma getMonthlyData_rows (transactions : list Transaction.t)
    (e : MonthlyData.t) :
  In e (Analytics.getMonthlyData transactions)
  <-> of_month (MonthlyData.month e) transactions <> []
      /\ e = monthly_row
               (MonthlyData.month e,
                fold_left monthly_add
                  (of_month (MonthlyData.month e) transactions)
                  (MonthlySums.mk 0 0)).
Proof.
  unfold Analytics.getMonthlyData. rewrite monthly_step_upsert.
  fold monthly_row.
  split.
  - intro Hin.
    apply (Permutation_in _ (Permutation_sym (Array_sort_Permutation _ _)))
      in Hin.
    apply in_map_iff in Hin. destruct Hin as [[k v] [<- Hin]].
    apply entries_fold_upsert in Hin. destruct Hin as [Hne ->].
    cbn. split; [exact Hne|reflexivity].
  - intros [Hne He].
    apply (Permutation_in _ (Array_sort_Permutation _ _)).
    rewrite He. apply in_map. apply entries_fold_upsert.
    split; [exact Hne|reflexivity].
Qed.

(** C5.  The monthly report has one row for each year-month key (the
    first seven characters of the date) that occurs among the transactions
    and no other row; the income and the expenses of a row are the sums of
    the amounts of the income and of the expense transactions of that key;
    its net is its income minus its expenses; and the rows come in
    ascending order of the key. *)
Theorem getMonthlyData_groups (transactions : list Transaction.t) :
  let report := Analytics.getMonthlyData transactions in
  (forall month,
      In month (map MonthlyData.month report)
      <-> exists t, In t transactions
                    /\ substring 0 7 (Transaction.date t) = month)
  /\ NoDup (map MonthlyData.month report)
  /\ (forall row, In row report ->
        let of_row := of_month (MonthlyData.month row) transactions in
        MonthlyData.income row == sum_amount_cad (of_type income of_row)
        /\ MonthlyData.expenses row == sum_amount_cad (of_type expense of_row)
        /\ MonthlyData.net row
           = MonthlyData.income row - MonthlyData.expenses row)
  /\ StronglySorted
       (fun a b => String.leb (MonthlyData.month a) (MonthlyData.month b) = true)
       report.
Proof.
  cbv zeta. split; [|split; [|split]].
  - intro month. split.
    + intro Hin. apply in_map_iff in Hin. destruct Hin as [row [<- Hin]].
      apply getMonthlyData_rows in Hin. destruct Hin as [Hne _].
      apply (with_key_nonempty monthKey) in Hne. exact Hne.
    + intro Hex. apply (with_key_nonempty monthKey) in Hex.
      apply in_map_iff.
      exists (monthly_row
                (month, fold_left monthly_add (of_month month transactions)
                          (MonthlySums.mk 0 0))).
      split; [reflexivity|].
      apply getMonthlyData_rows. cbn. split; [exact Hex|reflexivity].
  - unfold Analytics.getMonthlyData.
    eapply Permutation_NoDup.
    + apply Permutation_map. apply Array_sort_Permutation.
    + rewrite map_map. rewrite monthly_step_upsert.
      erewrite map_ext; [apply NoDup_fold_upsert; constructor|].
      intros [k v]. reflexivity.
  - intros row Hin. apply getMonthlyData_rows in Hin.
    destruct Hin as [_ He].
    pose proof (f_equal MonthlyData.income He) as Ei.
    pose proof (f_equal MonthlyData.expenses He) as Ee.
    pose proof (f_equal MonthlyData.net He) as En.
    cbn [monthly_row MonthlyData.income MonthlyData.expenses MonthlyData.net]
      in Ei, Ee, En.
    destruct (monthly_add_fold (of_month (MonthlyData.month row) transactions)
                (MonthlySums.mk 0 0)) as [Hi Hx].
    cbn [MonthlySums.income MonthlySums.expenses] in Hi, Hx.
    split; [|split].
    + rewrite Ei, Hi. lra.
    + rewrite Ee, Hx. lra.
    + rewrite En, Ei, Ee. reflexivity.
  - unfold Analytics.getMonthlyData.
    eapply StronglySorted_impl; [|apply Array_sort_sorted].
    + intros x y H. cbn in H. now apply localeCompare_le.
    + intros x y. apply localeCompare_total.
    + intros x y z. apply localeCompare_trans.
Qed.

Lemma getCategoryData_rows (transactions : list Transaction.t)
    (type : TransactionType) (e : CategoryData.t) :
  let typed := of_type type transactions in
  let totalAmount :=
    fold_left (fun sum t => sum + Transaction.amount_cad t) typed 0 in
  In e (Analytics.getCategoryData transactions type)
  <-> of_category (CategoryData.category e) typed <> []
      /\ e = category_row totalAmount
               (CategoryData.category e,
                fold_left category_add
                  (of_category (CategoryData.category e) typed)
                  (CategorySums.mk 0 0)).
Proof.
  cbv zeta. unfold Analytics.getCategoryData. rewrite category_step_upsert.
  fold (of_type type transactions).
  fold (category_row
          (fold_left (fun sum t => sum + Transaction.amount_cad t)
                     (of_type type transactions) 0)).
  split.
  - intro Hin.
    apply (Permutation_in _ (Permutation_sym (Array_sort_Permutation _ _)))
      in Hin.
    apply in_map_iff in Hin. destruct Hin as [[k v] [<- Hin]].
    apply entries_fold_upsert in Hin. destruct Hin as [Hne ->].
    cbn. split; [exact Hne|reflexivity].
  - intros [Hne He].
    apply (Permutation_in _ (Array_sort_Permutation _ _)).
    rewrite He. apply in_map. apply entries_fold_upsert.
    split; [exact Hne|reflexivity].
Qed.

(** The category report on any list, negative amounts included.  It has
    one row for each category that occurs among the transactions of the
    type and no other row; the amount of a row is the sum of the amounts of
    the transactions of that type and category, and its count is their
    number; its percentage is the amount divided by the total of the type,
    times 100, when that total is positive, and 0 otherwise; the rows come
    in descending order of amount; and an empty list of transactions gives
    an empty report. *)
Lemma getCategoryData_report (transactions : list Transaction.t)
    (type : TransactionType) :
  let report := Analytics.getCategoryData transactions type in
  let typed := of_type type transactions in
  let total := sum_amount_cad typed in
  (transactions = [] -> report = [])
  /\ (forall category,
        In category (map CategoryData.category report)
        <-> exists t, In t typed /\ Transaction.category t = category)
  /\ NoDup (map CategoryData.category report)
  /\ (forall row, In row report ->
        let of_row := of_category (CategoryData.category row) typed in
        CategoryData.amount row == sum_amount_cad of_row
        /\ CategoryData.transactions row = length of_row
        /\ (0 < total ->
            CategoryData.percentage row
            == CategoryData.amount row / total * 100)
        /\ (total <= 0 -> CategoryData.percentage row == 0))
  /\ StronglySorted
       (fun a b => CategoryData.amount b <= CategoryData.amount a) report.
Proof.
  cbv zeta. split; [|split; [|split; [|split]]].
  - intros ->. reflexivity.
  - intro category. split.
    + intro Hin. apply in_map_iff in Hin. destruct Hin as [row [<- Hin]].
      apply getCategoryData_rows in Hin. destruct Hin as [Hne _].
      apply (with_key_nonempty Transaction.category) in Hne. exact Hne.
    + intro Hex. apply (with_key_nonempty Transaction.category) in Hex.
      apply in_map_iff.
      exists (category_row
                (fold_left (fun sum t => sum + Transaction.amount_cad t)
                   (of_type type transactions) 0)
                (category,
                 fold_left category_add
                   (of_category category (of_type type transactions))
                   (CategorySums.mk 0 0))).
      split; [reflexivity|].
      apply getCategoryData_rows. cbn. split; [exact Hex|reflexivity].
  - unfold Analytics.getCategoryData.
    eapply Permutation_NoDup.
    + apply Permutation_map. apply Array_sort_Permutation.
    + rewrite map_map. rewrite category_step_upsert.
      erewrite map_ext; [apply NoDup_fold_upsert; constructor|].
      intros [k v]. reflexivity.
  - intros row Hin. apply getCategoryData_rows in Hin.
    destruct Hin as [_ He].
    pose proof (sum_fold_left (of_type type transactions) 0) as Htotal.
    set (totalAmount :=
           fold_left (fun sum t => sum + Transaction.amount_cad t)
                     (of_type type transactions) 0) in *.
    pose proof (f_equal CategoryData.amount He) as Ea.
    pose proof (f_equal CategoryData.percentage He) as Ep.
    pose proof (f_equal CategoryData.transactions He) as Ec.
    cbn [category_row CategoryData.amount CategoryData.percentage
         CategoryData.transactions] in Ea, Ep, Ec.
    destruct (category_add_fold
                (of_category (CategoryData.category row)
                   (of_type type transactions))
                (CategorySums.mk 0 0)) as [Ha Hc].
    cbn [CategorySums.amount CategorySums.count] in Ha, Hc.
    split; [|split; [|split]].
    + rewrite Ea, Ha. lra.
    + rewrite Ec, Hc. reflexivity.
    + intro Hpos. rewrite Ep, <- Ea.
      assert (E : gtb totalAmount 0 = true) by (apply gtb_true_iff; lra).
      rewrite E. assert (Ht : totalAmount == sum_amount_cad
                                (of_type type transactions)) by lra.
      now rewrite Ht.
    + intro Hneg. rewrite Ep.
      assert (E : gtb totalAmount 0 = false) by (apply gtb_false_iff; lra).
      rewrite E. reflexivity.
  - unfold Analytics.getCategoryData.
    eapply StronglySorted_impl; [|apply Array_sort_sorted].
    + intros x y H. cbn in H. lra.
    + intros x y. cbn. lra.
    + intros x y z. cbn. lra.
Qed.

(** Amounts that are not negative add up to a total that is not
    negative, also after filtering. *)
Lemma sum_amount_cad_nonneg (l : list Transaction.t) :
  (forall t, In t l -> 0 <= Transaction.amount_cad t) ->
  0 <= sum_amount_cad l.
Proof.
  induction l as [|t l IH]; intro H; cbn.
  - lra.
  - assert (0 <= Transaction.amount_cad t) by (apply H; left; reflexivity).
    assert (0 <= sum_amount_cad l)
      by (apply IH; intros t' Ht'; apply H; right; exact Ht').
    unfold sum_amount_cad in *. lra.
Qed.

Lemma of_type_nonneg (type : TransactionType) (l : list Transaction.t) :
  (forall t, In t l -> 0 <= Transaction.amount_cad t) ->
  0 <= sum_amount_cad (of_type type l).
Proof.
  intro H. apply sum_amount_cad_nonneg. intros t Ht.
  apply filter_In in Ht. apply H. exact (proj1 Ht).
Qed.

(** C6.  On a list of transactions none of which has a negative amount
    (the two forms that write transactions refuse an amount that is not
    positive), the category report of a type has one row for each category
    that occurs among the transactions of that type and no other row; the
    amount of a row is the sum of the amounts of the transactions of that
    type and category, and its count is their number; its percentage is
    the amount divided by the total of the type, times 100, and 0 when
    that total is 0; the rows come in descending order of amount; and an
    empty list of transactions gives an empty report. *)
Theorem getCategoryData_groups (transactions : list Transaction.t)
    (type : TransactionType) :
  (forall t, In t transactions -> 0 <= Transaction.amount_cad t) ->
  let report := Analytics.getCategoryData transactions type in
  let typed := of_type type transactions in
  let total := sum_amount_cad typed in
  (transactions = [] -> report = [])
  /\ (forall category,
        In category (map CategoryData.category report)
        <-> exists t, In t typed /\ Transaction.category t = category)
  /\ NoDup (map CategoryData.category report)
  /\ (forall row, In row report ->
        let of_row := of_category (CategoryData.category row) typed in
        CategoryData.amount row == sum_amount_cad of_row
        /\ CategoryData.transactions row = length of_row
        /\ (~ total == 0 ->
            CategoryData.percentage row
            == CategoryData.amount row / total * 100)
        /\ (total == 0 -> CategoryData.percentage row == 0))
  /\ StronglySorted
       (fun a b => CategoryData.amount b <= CategoryData.amount a) report.
Proof.
  intro Hamounts. cbv zeta.
  pose proof (of_type_nonneg type transactions Hamounts) as Htotal.
  destruct (getCategoryData_report transactions type)
    as [Hempty [Hkeys [Hnodup [Hrows Hsorted]]]].
  cbv zeta in Hrows.
  split; [exact Hempty|split; [exact Hkeys|split; [exact Hnodup|split]]].
  - intros row Hin.
    destruct (Hrows row Hin) as [Ha [Hc [Hpos Hzero]]].
    split; [exact Ha|split; [exact Hc|split]].
    + intro Hne. apply Hpos. lra.
    + intro Hz. apply Hzero. lra.
  - exact Hsorted.
Qed.

(* ================================================================= *)
(** ** The properties on the sample data *)

(** A debt with 100 remaining: paying 40 leaves 60, not paid. *)
Lemma applyPayment_effect_witness :
  let run := DebtManager.handlePayment Host.js (Sample.paying "40") in
  exists updated,
    Debt.remaining_amount_cad updated = 100 - 40
    /\ Debt.remaining_amount_inr updated = (100 - 40) * 61.5
    /\ (Debt.is_paid updated = "1"%string <-> 100 - 40 <= 0)
    /\ (Debt.is_paid updated = "0"%string <-> 0 < 100 - 40)
    /\ sends run Sample.world (db.debts_update "debt_1" updated)
    /\ db.debts (store (after run Sample.world)) = [updated].
Proof.
  destruct (applyPayment_effect Host.js (Sample.paying "40") Sample.world
              Sample.debt 40)
    as [updated [Hcad [Hinr [Hpaid [Hopen [_ Hsent]]]]]];
    try (vm_compute; first [reflexivity | discriminate]).
  destruct (Hsent Sample.owner eq_refl eq_refl) as [Hs Hstore].
  exists updated. cbv zeta.
  split; [exact Hcad|]. split; [exact Hinr|]. split; [exact Hpaid|].
  split; [exact Hopen|]. split; [exact Hs|]. exact (Hstore eq_refl).
Defined.

(** Paying 100 settles it. *)
Example payment_in_full :
  db.debts (store (after (DebtManager.handlePayment Host.js
                            (Sample.paying "100")) Sample.world))
  = [DebtManager.updatedDebt Host.js Sample.debt 100 Sample.today]
  /\ Debt.remaining_amount_cad
       (DebtManager.updatedDebt Host.js Sample.debt 100 Sample.today) == 0
  /\ Debt.is_paid (DebtManager.updatedDebt Host.js Sample.debt 100 Sample.today)
     = "1"%string.
Proof. vm_compute. repeat split. Qed.

(** Paying 150 is refused and nothing changes. *)
Lemma applyPayment_rejects_witness :
  (exists message,
      DebtManager.handlePayment Host.js (Sample.paying "150") Sample.world
      = (Returned (Sample.paying "150"),
         with_toasts (toasts Sample.world ++ [mkToast true message])
                     Sample.world))
  /\ requests (after (DebtManager.handlePayment Host.js (Sample.paying "150"))
                     Sample.world) = requests Sample.world
  /\ store (after (DebtManager.handlePayment Host.js (Sample.paying "150"))
                  Sample.world) = store Sample.world.
Proof.
  apply (applyPayment_rejects Host.js (Sample.paying "150") Sample.world
           Sample.debt).
  - reflexivity.
  - vm_compute. right. reflexivity.
Defined.

(** The update sent for the payment of 40 keeps the other fields. *)
Lemma applyPayment_frame_witness :
  let updated := DebtManager.updatedDebt Host.js Sample.debt 40 Sample.today in
  Debt.id updated = Debt.id Sample.debt
  /\ Debt.user_id updated = Debt.user_id Sample.debt
  /\ Debt.type updated = Debt.type Sample.debt
  /\ Debt.person_name updated = Debt.person_name Sample.debt
  /\ Debt.total_amount_cad updated = Debt.total_amount_cad Sample.debt
  /\ Debt.total_amount_inr updated = Debt.total_amount_inr Sample.debt
  /\ Debt.exchange_rate updated = Debt.exchange_rate Sample.debt
  /\ Debt.purpose updated = Debt.purpose Sample.debt
  /\ Debt.due_date updated = Debt.due_date Sample.debt
  /\ Debt.priority_score updated = Debt.priority_score Sample.debt
  /\ Debt.created_at updated = Debt.created_at Sample.debt.
Proof.
  apply (applyPayment_frame Host.js (Sample.paying "40") Sample.world
           Sample.debt "debt_1").
  - reflexivity.
  - exists [db.debt_payments_create
              (DebtManager.paymentRecord Host.js Sample.debt 40 EmptyString
                 Sample.today "k3x9q2m1z" Sample.owner);
            db.debts_update "debt_1"
              (DebtManager.updatedDebt Host.js Sample.debt 40 Sample.today);
            db.debts_list "user_1"].
    split; [vm_compute; reflexivity|]. right. left. reflexivity.
Defined.

(** The debt of 200 that the form creates, then paid in full: both are
    debts the application wrote, and the invariant holds of the second. *)
Lemma debt_invariant_holds_witness :
  let created :=
    DebtManager.new_debt Host.js (DebtManager.newDebt Sample.adding) 200
      Sample.today "k3x9q2m1z" Sample.owner in
  let settled := DebtManager.updatedDebt Host.js created 200 Sample.today in
  debt_invariant settled
  /\ Debt.priority_score settled = 0
  /\ (forall st w,
        sends (DebtManager.handleAddDebt Host.js st) w (db.debts_create settled) ->
        Debt.remaining_amount_cad settled = Debt.total_amount_cad settled
        /\ Debt.is_paid settled = "0"%string).
Proof.
  cbv zeta.
  apply (debt_invariant_holds Host.js).
  eapply (produced_by_payment Host.js
            (DebtManager.mkState [] false false true
               (Some (DebtManager.new_debt Host.js
                        (DebtManager.newDebt Sample.adding) 200
                        Sample.today "k3x9q2m1z" Sample.owner))
               DebtManager.empty_form (Payment.mk "200" EmptyString))
            Sample.world).
  - reflexivity.
  - apply (produced_by_add Host.js Sample.adding Sample.world).
    exists [db.debts_create
              (DebtManager.new_debt Host.js (DebtManager.newDebt Sample.adding)
                 200 Sample.today "k3x9q2m1z" Sample.owner);
            db.debts_list "user_1"].
    split; [vm_compute; reflexivity|]. left. reflexivity.
  - exists [db.debt_payments_create
              (DebtManager.paymentRecord Host.js
                 (DebtManager.new_debt Host.js
                    (DebtManager.newDebt Sample.adding) 200 Sample.today
                    "k3x9q2m1z" Sample.owner)
                 200 EmptyString Sample.today "k3x9q2m1z" Sample.owner);
            db.debts_update "debt_1705312800000_k3x9q2m1z"
              (DebtManager.updatedDebt Host.js
                 (DebtManager.new_debt Host.js
                    (DebtManager.newDebt Sample.adding) 200 Sample.today
                    "k3x9q2m1z" Sample.owner)
                 200 Sample.today);
            db.debts_list "user_1"].
    split; [vm_compute; reflexivity|]. right. left. reflexivity.
Defined.

(** On 2024-01-15 at 10:00 UTC a debt due on 2024-01-22 is seven days
    away, so urgent. *)
Lemma classify_bands_witness :
  DebtManager.getDaysUntilDue Host.js Sample.today "2024-01-22" = Some 7%Z
  /\ DebtManager.getPriorityLevel Host.js Sample.today Sample.debt = urgent.
Proof.
  destruct (classify_bands Host.js Sample.today Sample.debt)
    as [_ [_ [_ H]]].
  destruct (H "2024-01-22"%string 1705881600000%Z)
    as [Hdays [_ [_ [Hurgent _]]]]; try reflexivity.
  split.
  - exact Hdays.
  - apply Hurgent. vm_compute. split; discriminate.
Defined.

(** The other bands, by evaluation: eight and thirty days are medium,
    thirty-one days is low, yesterday is overdue, no due date is low. *)
Example classify_examples :
  let due s :=
    Debt.mk "debt_2" "user_1" owe "Alex" 100 6150 100 6150 61.5 "rent"
      s "0" 0 "2024-01-01T00:00:00.000Z" "2024-01-01T00:00:00.000Z" in
  DebtManager.getPriorityLevel Host.js Sample.today
    (due (Some "2024-01-23"%string)) = medium
  /\ DebtManager.getPriorityLevel Host.js Sample.today
       (due (Some "2024-02-14"%string)) = medium
  /\ DebtManager.getPriorityLevel Host.js Sample.today
       (due (Some "2024-02-15"%string)) = low
  /\ DebtManager.getPriorityLevel Host.js Sample.today
       (due (Some "2024-01-14"%string)) = overdue
  /\ DebtManager.getPriorityLevel Host.js Sample.today (due None) = low.
Proof. vm_compute. repeat split. Qed.

(** The sample ledger: two months, in order. *)
Example getMonthlyData_example :
  Analytics.getMonthlyData Sample.ledger
  = [MonthlyData.mk "2024-01" 100 30 70; MonthlyData.mk "2024-02" 50 0 50].
Proof. vm_compute. reflexivity. Qed.

Lemma getMonthlyData_groups_witness :
  let row := MonthlyData.mk "2024-01" 100 30 70 in
  MonthlyData.income row
  == sum_amount_cad (of_type income (of_month "2024-01" Sample.ledger))
  /\ MonthlyData.expenses row
     == sum_amount_cad (of_type expense (of_month "2024-01" Sample.ledger))
  /\ MonthlyData.net row = MonthlyData.income row - MonthlyData.expenses row.
Proof.
  destruct (getMonthlyData_groups Sample.ledger) as [_ [_ [H _]]].
  apply (H (MonthlyData.mk "2024-01" 100 30 70)).
  vm_compute. left. reflexivity.
Defined.

Example getCategoryData_empty :
  Analytics.getCategoryData [] income = []
  /\ Analytics.getCategoryData [] expense = [].
Proof. split; reflexivity. Qed.

(** The income of the sample ledger by category: the salary row. *)
Lemma getCategoryData_groups_witness :
  let row := CategoryData.mk "Salary" 100 (10000 # 150) 1 in
  let typed := of_type income Sample.ledger in
  (forall t, In t Sample.ledger -> 0 <= Transaction.amount_cad t)
  /\ CategoryData.amount row == sum_amount_cad (of_category "Salary" typed)
  /\ CategoryData.transactions row = length (of_category "Salary" typed)
  /\ CategoryData.percentage row
     == CategoryData.amount row / sum_amount_cad typed * 100.
Proof.
  assert (Hamounts : forall t, In t Sample.ledger ->
                               0 <= Transaction.amount_cad t).
  { intros t Ht. vm_compute in Ht.
    repeat (destruct Ht as [<-|Ht]; [vm_compute; discriminate|]).
    destruct Ht. }
  destruct (getCategoryData_groups Sample.ledger income Hamounts)
    as [_ [_ [_ [H _]]]].
  destruct (H (CategoryData.mk "Salary" 100 (10000 # 150) 1))
    as [Ha [Hc [Hp _]]].
  - vm_compute. left. reflexivity.
  - cbv zeta. split; [exact Hamounts|split; [exact Ha|split; [exact Hc|]]].
    apply Hp. vm_compute. discriminate.
Defined.

(** The sample store holds no preferences: loading creates the defaults. *)
Lemma loadPreferences_lazy_witness :
  let w' := after (Settings.loadPreferences Host.js Sample.settings)
                  Sample.world in
  db.user_preferences (store w')
  = [UserPreferences.mk "pref_1705312800000_k3x9q2m1z" "user_1" CAD light 61.5
       "2024-01-15T10:00:00.000Z" "2024-01-15T10:00:00.000Z"].
Proof.
  pose proof (loadPreferences_lazy Host.js Sample.settings Sample.world
                Sample.owner eq_refl eq_refl) as H.
  cbv zeta in H. cbn [filter Sample.world store db.user_preferences] in H.
  destruct H as [_ [_ [_ [_ [_ H]]]]].
  destruct (H eq_refl) as [H' _]. cbv zeta. rewrite H'.
  vm_compute. reflexivity.
Defined.

(** A second load finds the record and creates nothing. *)
Example loadPreferences_twice :
  let w1 := after (Settings.loadPreferences Host.js Sample.settings)
                  Sample.world in
  let w2 := after (Settings.loadPreferences Host.js Sample.settings) w1 in
  store w2 = store w1
  /\ length (db.user_preferences (store w2)) = 1%nat
  /\ requests w2
     = requests w1 ++ [db.user_preferences_list "user_1"].
Proof. vm_compute. repeat split. Qed.

(** The owner's own address and a listed address are refused. *)
Lemma addFamilyMember_guards_witness :
  requests (after (FamilySharing.addFamilyMember Host.js
                     (Sample.inviting "owner@example.com")) Sample.world)
  = requests Sample.world
  /\ store (after (FamilySharing.addFamilyMember Host.js
                     (Sample.inviting "owner@example.com")) Sample.world)
     = store Sample.world.
Proof.
  destruct (addFamilyMember_guards Host.js
              (Sample.inviting "owner@example.com") Sample.world) as [H _].
  destruct H as [_ H]; [|exact H].
  right. left. exists Sample.owner. split; reflexivity.
Defined.

Example addFamilyMember_example :
  let w' := after (FamilySharing.addFamilyMember Host.js
                     (Sample.inviting "brother@example.com")) Sample.world in
  db.family_access (store w')
  = [Sample.grant;
     FamilyAccess.mk "family_1705312800000_k3x9q2m1z" "user_1"
       "brother@example.com" view "1"
       "2024-01-15T10:00:00.000Z" "2024-01-15T10:00:00.000Z"].
Proof. vm_compute. reflexivity. Qed.

(** Deleting the sample debt when the user confirms nothing: the debt is
    gone from the remote store and no prompt was shown; removing the
    sample grant under the same answers leaves it in place. *)
Example deleteDebt_example :
  let w' := after (DebtManager.deleteDebt "debt_1" (Sample.paying "")) Sample.world in
  answers Sample.world = []
  /\ prompts w' = []
  /\ requests w' = [db.debts_delete "debt_1"; db.debts_list "user_1"]
  /\ db.debts (store w') = [].
Proof. vm_compute. repeat split. Qed.

Example removeFamilyMember_example :
  let w' := after (FamilySharing.removeFamilyMember "family_1"
                     "sister@example.com" (Sample.inviting ""))
                  Sample.world in
  prompts w'
  = ["Are you sure you want to remove sister@example.com from family access?"%string]
  /\ requests w' = []
  /\ db.family_access (store w') = [Sample.grant].
Proof. vm_compute. repeat split. Qed.

(* ================================================================= *)
(** ** More on adding a debt and recording a payment *)

Section DebtHandlers.
Variable js : Builtins.

(** X1.  A new-debt form with an empty name, amount or purpose, or with an
    amount that does not read as a positive number, is refused: one error
    toast, the state as it was, no request, the remote store untouched. *)
Theorem handleAddDebt_rejects st w :
  let form := DebtManager.newDebt st in
  falsy (NewDebt.person_name form) = true
  \/ falsy (NewDebt.amount form) = true
  \/ falsy (NewDebt.purpose form) = true
  \/ match parseFloat js (NewDebt.amount form) with
     | None => True
     | Some amountCad => amountCad <= 0
     end ->
  exists message,
    DebtManager.handleAddDebt js st w
    = (Returned st, with_toasts (toasts w ++ [mkToast true message]) w).
Proof.
  cbv zeta. intro Hbad. unfold DebtManager.handleAddDebt.
  destruct (falsy (NewDebt.person_name _)) eqn:E1; [eexists; reflexivity|].
  destruct (falsy (NewDebt.amount _)) eqn:E2; [eexists; reflexivity|].
  destruct (falsy (NewDebt.purpose _)) eqn:E3; [eexists; reflexivity|].
  cbn [orb].
  destruct Hbad as [H|[H|[H|H]]]; try discriminate.
  destruct (parseFloat _ _) as [a|]; [|eexists; reflexivity].
  apply leb_true_iff in H. rewrite H. eexists; reflexivity.
Qed.

(** X2.  A valid new-debt form, a signed-in user and a remote store that
    takes the record: exactly one debt is created, for the typed amount as
    both total and remaining amount, not paid, owned by the user; the
    remote store holds it after the debts it held; the form is emptied and
    the dialog closed; and when the reload is answered the new debt is in
    the list shown. *)
Theorem handleAddDebt_accepts st w amountCad u :
  valid_new_debt js (DebtManager.newDebt st) amountCad ->
  user w = Some u -> reply 0 w = true ->
  let run := DebtManager.handleAddDebt js st in
  let created :=
    DebtManager.new_debt js (DebtManager.newDebt st) amountCad
      (clock w) (entropy w) u in
  requests (after run w)
  = requests w ++ [db.debts_create created; db.debts_list (User.id u)]
  /\ db.debts (store (after run w)) = db.debts (store w) ++ [created]
  /\ Debt.total_amount_cad created = amountCad
  /\ Debt.remaining_amount_cad created = amountCad
  /\ Debt.is_paid created = "0"%string
  /\ Debt.user_id created = User.id u
  /\ exists st',
       fst (run w) = Returned st'
       /\ DebtManager.newDebt st' = DebtManager.empty_form
       /\ DebtManager.addDialogOpen st' = false
       /\ DebtManager.loading st' = false
       /\ (reply 1 w = true -> In created (DebtManager.debts st')).
Proof.
  intros [H1 [H2 [H3 [Hp Hpos]]]] Hu H0. cbv zeta.
  unfold DebtManager.handleAddDebt, DebtManager.loadDebts.
  rewrite H1, H2, H3, Hp. cbn [orb].
  apply leb_false_iff in Hpos. rewrite Hpos.
  destruct w as [s rq rp ts ps an ck en us]. cbn in Hu. subst us.
  unfold_eff. cbn in H0. cbn. rewrite H0. cbn.
  destruct (nth 0 (tl rp) true) eqn:E1; cbn; rewrite <- ?app_assoc;
    (repeat split; try reflexivity); eexists;
    (repeat split; try reflexivity).
  - intros _. cbn.
    apply (Permutation_in _ (Array_sort_Permutation _ _)).
    apply filter_In. split.
    + apply in_or_app. right. left. reflexivity.
    + cbn. apply String.eqb_refl.
  - destruct rp as [|b0 [|b1 rp]]; cbn in *; congruence.
Qed.

(** X3.  A valid new-debt form when nobody is signed in or the remote
    store refuses the record: the failure is reported once, the form and
    the dialog stay as they were, and the remote store is untouched. *)
Theorem handleAddDebt_failure st w amountCad :
  valid_new_debt js (DebtManager.newDebt st) amountCad ->
  user w = None \/ reply 0 w = false ->
  let run := DebtManager.handleAddDebt js st in
  fst (run w) = Returned st
  /\ store (after run w) = store w
  /\ toasts (after run w) = toasts w ++ [mkToast true "Failed to add debt"]
  /\ (user w = None -> requests (after run w) = requests w).
Proof.
  intros [H1 [H2 [H3 [Hp Hpos]]]] Hfail. cbv zeta.
  unfold DebtManager.handleAddDebt, DebtManager.loadDebts.
  rewrite H1, H2, H3, Hp. cbn [orb].
  apply leb_false_iff in Hpos. rewrite Hpos.
  destruct w as [s rq rp ts ps an ck en [u|]]; unfold_eff; cbn in *.
  - destruct Hfail as [Hfail|Hfail]; [discriminate|]. rewrite Hfail. cbn.
    repeat split. discriminate.
  - repeat split.
Qed.

Ltac enter_payment H :=
  destruct H as [Hs [Hf [Hp [Hpos Hle]]]];
  unfold DebtManager.handlePayment, DebtManager.loadDebts;
  rewrite Hs, Hf, Hp;
  apply leb_false_iff in Hpos; rewrite Hpos;
  apply gtb_false_iff in Hle; rewrite Hle.

(** X4.  The two writes of a payment are not atomic: when the remote store
    takes the payment record and then refuses the update of the debt, the
    record stays stored while the debt keeps its old remaining amount; the
    failure is reported and the form stays open. *)
Theorem handlePayment_partial_failure st w selected paymentAmount u :
  accepted_payment js st selected paymentAmount ->
  user w = Some u -> reply 0 w = true -> reply 1 w = false ->
  let run := DebtManager.handlePayment js st in
  db.debt_payments (store (after run w))
  = db.debt_payments (store w)
    ++ [DebtManager.paymentRecord js selected paymentAmount
          (Payment.notes (DebtManager.payment st)) (clock w) (entropy w) u]
  /\ db.debts (store (after run w)) = db.debts (store w)
  /\ fst (run w) = Returned st
  /\ toasts (after run w)
     = toasts w ++ [mkToast true "Failed to record payment"].
Proof.
  intros Hacc Hu H0 H1. cbv zeta. enter_payment Hacc.
  destruct w as [s rq rp ts ps an ck en us]. cbn in Hu. subst us.
  unfold_eff. cbn in H0, H1.
  destruct rp as [|b0 [|b1 rp]]; cbn in H0, H1; try discriminate.
  subst b0 b1. cbn. repeat split.
Qed.

(** X5.  When nobody is signed in or the remote store refuses the payment
    record, nothing is stored, no update of the debt is sent, the failure
    is reported and the form stays open. *)
Theorem handlePayment_first_write_fails st w selected paymentAmount :
  accepted_payment js st selected paymentAmount ->
  user w = None \/ reply 0 w = false ->
  let run := DebtManager.handlePayment js st in
  store (after run w) = store w
  /\ (forall id d, ~ sends run w (db.debts_update id d))
  /\ fst (run w) = Returned st
  /\ toasts (after run w)
     = toasts w ++ [mkToast true "Failed to record payment"].
Proof.
  intros Hacc Hfail. cbv zeta.
  assert (Hrun :
    exists rest,
      DebtManager.handlePayment js st w
      = (Returned st,
         with_toasts (toasts w ++ [mkToast true "Failed to record payment"])
           (with_replies (skipn (length rest) (replies w))
              (with_requests (requests w ++ rest) w)))
      /\ forall id d, ~ In (db.debts_update id d) rest).
  { enter_payment Hacc.
    destruct w as [s rq rp ts ps an ck en [u|]]; unfold_eff; cbn in *.
    - destruct Hfail as [Hfail|Hfail]; [discriminate|]. rewrite Hfail.
      eexists [_]. split.
      + cbn. destruct rp; reflexivity.
      + intros id d [H|[]]. discriminate.
    - exists []. split.
      + cbn. rewrite app_nil_r. reflexivity.
      + intros id d []. }
  destruct Hrun as [rest [Hrun Hno]]. unfold after. rewrite Hrun. cbn.
  repeat split.
  intros id d [rest' [Hreq Hin]]. unfold after in Hreq. rewrite Hrun in Hreq.
  cbn in Hreq. apply app_inv_head in Hreq. subst rest'. now apply (Hno id d).
Qed.

(** X6.  Every payment record that [handlePayment] sends is for the
    selected debt, for the typed amount, which is positive and at most
    what remains, and carries that amount times 61.5 as its secondary
    amount. *)
Theorem handlePayment_record st w p :
  sends (DebtManager.handlePayment js st) w (db.debt_payments_create p) ->
  exists selected,
    DebtManager.selectedDebt st = Some selected
    /\ DebtPayment.debt_id p = Debt.id selected
    /\ parseFloat js (Payment.amount (DebtManager.payment st))
       = Some (DebtPayment.amount_cad p)
    /\ 0 < DebtPayment.amount_cad p
    /\ DebtPayment.amount_cad p <= Debt.remaining_amount_cad selected
    /\ DebtPayment.amount_inr p = DebtPayment.amount_cad p * 61.5
    /\ DebtPayment.exchange_rate p = 61.5.
Proof.
  intros [rest [Hreq Hin]].
  unfold DebtManager.handlePayment, DebtManager.loadDebts in Hreq.
  destruct (DebtManager.selectedDebt st) as [selected|] eqn:Hs;
    [|nothing_sent Hreq rest Hin].
  destruct (falsy _) eqn:Hf; [nothing_sent Hreq rest Hin|].
  destruct (parseFloat _ _) as [a|] eqn:Hp; [|nothing_sent Hreq rest Hin].
  destruct (leb a 0) eqn:Hpos; [nothing_sent Hreq rest Hin|].
  destruct (gtb _ _) eqn:Hle; [nothing_sent Hreq rest Hin|].
  apply leb_false_iff in Hpos. apply gtb_false_iff in Hle.
  exists selected.
  assert (Hrec : exists notes now rnd u,
             p = DebtManager.paymentRecord js selected a notes now rnd u).
  { destruct w as [s rq rp ts ps an ck en [u|]]; unfold_eff;
      split_replies rp; cbn in Hreq; sent_is Hreq rest; cbn in Hin;
      repeat (destruct Hin as [Hin|Hin]; try discriminate;
              try (injection Hin as <-; repeat eexists));
      try contradiction. }
  destruct Hrec as [notes [now [rnd [u ->]]]]. cbn. repeat split; auto.
Qed.

(** X7.  After a payment that the remote store took, the payment form is
    emptied, the dialog closed and no debt is selected; and when the reload
    is answered, the list shown holds the updated debt of a selected debt
    that the store held for this user. *)
Theorem handlePayment_closes_form st w selected paymentAmount u :
  accepted_payment js st selected paymentAmount ->
  user w = Some u -> reply 0 w = true -> reply 1 w = true ->
  exists st',
    fst (DebtManager.handlePayment js st w) = Returned st'
    /\ DebtManager.selectedDebt st' = None
    /\ DebtManager.paymentDialogOpen st' = false
    /\ DebtManager.payment st' = Payment.mk EmptyString EmptyString
    /\ DebtManager.loading st' = false
    /\ (reply 2 w = true ->
        In selected (db.debts (store w)) ->
        Debt.user_id selected = User.id u ->
        In (DebtManager.updatedDebt js selected paymentAmount (clock w))
           (DebtManager.debts st')).
Proof.
  intros Hacc Hu H0 H1. enter_payment Hacc.
  destruct w as [s rq rp ts ps an ck en us]. cbn in Hu. subst us.
  unfold_eff. cbn in H0, H1.
  assert (E0 : nth 0 rp true = true) by exact H0.
  assert (E1 : nth 0 (tl rp) true = true)
    by (destruct rp as [|b0 [|b1 rp]]; cbn in *; congruence).
  cbn. rewrite E0. cbn. rewrite E1. cbn.
  destruct (nth 0 (tl (tl rp)) true) eqn:E2; cbn; eexists;
    (repeat split; try reflexivity).
  - intros _ Hin Huid. cbn.
    apply (Permutation_in _ (Array_sort_Permutation _ _)).
    apply filter_In. split.
    + apply in_map_iff. exists selected. split; auto.
      now rewrite String.eqb_refl.
    + cbn. rewrite Huid. apply String.eqb_refl.
  - intro H2. exfalso.
    destruct rp as [|b0 [|b1 [|b2 rp]]]; cbn in *; congruence.
Qed.

End DebtHandlers.

(* ================================================================= *)
(** ** More on the debts the application writes *)

Section WrittenDebts.
Variable js : Builtins.

Lemma produced_invariant d : produced js d -> debt_invariant d.
Proof.
  induction 1 as [st w d Hsent | st w selected id d Hs Hprod IH Hsent].
  - destruct (handleAddDebt_sends js st w d Hsent) as [a [u [_ [Hpos ->]]]].
    now apply new_debt_invariant.
  - destruct (handlePayment_sends js st w id d Hsent)
      as [sd [a [Hs' [_ [Hpos [Hle [_ ->]]]]]]].
    rewrite Hs in Hs'. injection Hs' as <-.
    now apply updatedDebt_invariant.
Qed.

Lemma produced_total_positive d :
  produced js d -> 0 < Debt.total_amount_cad d.
Proof.
  induction 1 as [st w d Hsent | st w selected id d Hs Hprod IH Hsent].
  - destruct (handleAddDebt_sends js st w d Hsent) as [a [u [_ [Hpos ->]]]].
    exact Hpos.
  - destruct (handlePayment_sends js st w id d Hsent)
      as [sd [a [Hs' [_ [_ [_ [_ ->]]]]]]].
    rewrite Hs in Hs'. injection Hs' as <-. exact IH.
Qed.

(** X8.  Every debt the application writes has a positive total, keeps
    the rate 61.5, and has both secondary amounts equal to the base
    amounts times that rate. *)
Theorem produced_secondary_amounts d :
  produced js d ->
  0 < Debt.total_amount_cad d
  /\ Debt.exchange_rate d = 61.5
  /\ Debt.total_amount_inr d = Debt.total_amount_cad d * 61.5
  /\ Debt.remaining_amount_inr d = Debt.remaining_amount_cad d * 61.5.
Proof.
  induction 1 as [st w d Hsent | st w selected id d Hs Hprod IH Hsent].
  - destruct (handleAddDebt_sends js st w d Hsent) as [a [u [_ [Hpos ->]]]].
    cbn. repeat split; auto.
  - destruct (handlePayment_sends js st w id d Hsent)
      as [sd [a [Hs' [_ [_ [_ [_ ->]]]]]]].
    rewrite Hs in Hs'. injection Hs' as <-.
    destruct IH as [Ht [Hr [Hti _]]]. cbn. repeat split; auto.
Qed.

(** X9.  A debt the application wrote and marked paid takes no further
    payment: whatever is typed, recording a payment for it shows an error,
    sends no request and leaves the remote store as it was. *)
Theorem settled_debt_takes_no_payment d st w :
  produced js d ->
  Debt.is_paid d = "1"%string ->
  DebtManager.selectedDebt st = Some d ->
  exists message,
    DebtManager.handlePayment js st w
    = (Returned st, with_toasts (toasts w ++ [mkToast true message]) w).
Proof.
  intros Hprod Hpaid Hs.
  destruct (produced_invariant d Hprod) as [_ [_ Hflag]].
  apply Hflag in Hpaid.
  unfold DebtManager.handlePayment. rewrite Hs.
  destruct (falsy _); [eexists; reflexivity|].
  destruct (parseFloat _ _) as [a|]; [|eexists; reflexivity].
  destruct (leb a 0) eqn:E; [eexists; reflexivity|].
  apply leb_false_iff in E.
  assert (G : gtb a (Debt.remaining_amount_cad d) = true)
    by (apply gtb_true_iff; lra).
  rewrite G. eexists; reflexivity.
Qed.

(** X10.  The progress bar of a debt the application wrote never divides
    by zero and never leaves its scale: the total it divides by is
    positive, and the percentage is at least 0 and at most 100. *)
Theorem progressPercentage_bounds d :
  produced js d ->
  0 < Debt.total_amount_cad d
  /\ 0 <= DebtCard.progressPercentage d
  /\ DebtCard.progressPercentage d <= 100.
Proof.
  intro Hprod.
  destruct (produced_invariant d Hprod) as [H0 [Hle _]].
  pose proof (produced_total_positive d Hprod) as Hpos.
  split; [exact Hpos|].
  unfold DebtCard.progressPercentage.
  set (total := Debt.total_amount_cad d) in *.
  set (remaining := Debt.remaining_amount_cad d) in *.
  assert (Hne : ~ total == 0) by lra.
  assert (E : (total - remaining) / total * 100
              == 100 - remaining * (100 / total)) by (field; exact Hne).
  assert (Hk : 0 < 100 / total).
  { apply Qlt_shift_div_l; lra. }
  assert (Hone : total * (100 / total) == 100) by (field; exact Hne).
  rewrite E. split.
  - assert (remaining * (100 / total) <= total * (100 / total)).
    { apply Qmult_le_compat_r; lra. }
    lra.
  - assert (0 <= remaining * (100 / total)).
    { apply Qmult_le_0_compat; lra. }
    lra.
Qed.

End WrittenDebts.

(* ================================================================= *)
(** ** More on the urgency bands *)

Section UrgencyInTime.
Variable js : Builtins.

(** The days until due of a debt whose due date reads as [due]. *)
Lemma getPriorityLevel_reads today debt dueDate due :
  Debt.due_date debt = Some dueDate ->
  falsy dueDate = false ->
  Date_getTime js dueDate = Some due ->
  let days :=
    Qceiling (inject_Z (due - today) / inject_Z DebtManager.ms_per_day) in
  DebtManager.getPriorityLevel js today debt
  = if (days <? 0)%Z then overdue
    else if (days <=? 7)%Z then urgent
    else if (days <=? 30)%Z then medium
    else low.
Proof.
  intros Hd Hf Ht. unfold DebtManager.getPriorityLevel,
    DebtManager.getDaysUntilDue.
  now rewrite Hd, Hf, Ht.
Qed.

(** X11.  With less time left a debt is never less urgent: between two
    debts with readable due dates, each looked at at its own moment, the
    one with at most as much time left is at least as urgent.  So a debt
    never becomes less urgent as time passes, and an earlier due date is
    never less urgent than a later one. *)
Theorem priority_monotone today today' debt debt' dueDate dueDate' due due' :
  Debt.due_date debt = Some dueDate ->
  falsy dueDate = false ->
  Date_getTime js dueDate = Some due ->
  Debt.due_date debt' = Some dueDate' ->
  falsy dueDate' = false ->
  Date_getTime js dueDate' = Some due' ->
  (due' - today' <= due - today)%Z ->
  (urgency (DebtManager.getPriorityLevel js today debt)
   <= urgency (DebtManager.getPriorityLevel js today' debt'))%nat.
Proof.
  intros Hd Hf Ht Hd' Hf' Ht' Hle.
  rewrite (getPriorityLevel_reads today debt dueDate due Hd Hf Ht).
  rewrite (getPriorityLevel_reads today' debt' dueDate' due' Hd' Hf' Ht').
  cbv zeta.
  pose proof (ceiling_of_days (due - today)) as B.
  pose proof (ceiling_of_days (due' - today')) as B'.
  cbv zeta in B, B'.
  set (days := Qceiling (inject_Z (due - today)
                         / inject_Z DebtManager.ms_per_day)) in *.
  set (days' := Qceiling (inject_Z (due' - today')
                          / inject_Z DebtManager.ms_per_day)) in *.
  change DebtManager.ms_per_day with 86400000%Z in B, B'.
  assert (Hdays : (days' <= days)%Z) by lia.
  destruct (Z.ltb_spec days 0), (Z.ltb_spec days' 0),
    (Z.leb_spec days 7), (Z.leb_spec days' 7),
    (Z.leb_spec days 30), (Z.leb_spec days' 30); cbn; lia.
Qed.

(** X12.  The bands in time: a debt with a readable due date is overdue
    exactly when its due time lies a whole day or more in the past, urgent
    from less than a day in the past up to seven days ahead, medium from
    there up to thirty days ahead, and low beyond. *)
Theorem priority_thresholds today debt dueDate due :
  Debt.due_date debt = Some dueDate ->
  falsy dueDate = false ->
  Date_getTime js dueDate = Some due ->
  let left := (due - today)%Z in
  let day := 86400000%Z in
  let priority := DebtManager.getPriorityLevel js today debt in
  (priority = overdue <-> (left <= - day)%Z)
  /\ (priority = urgent <-> (- day < left <= 7 * day)%Z)
  /\ (priority = medium <-> (7 * day < left <= 30 * day)%Z)
  /\ (priority = low <-> (30 * day < left)%Z).
Proof.
  intros Hd Hf Ht. cbv zeta.
  rewrite (getPriorityLevel_reads today debt dueDate due Hd Hf Ht).
  cbv zeta.
  pose proof (ceiling_of_days (due - today)) as B. cbv zeta in B.
  set (days := Qceiling _) in *.
  change DebtManager.ms_per_day with 86400000%Z in B.
  destruct (Z.ltb_spec days 0), (Z.leb_spec days 7), (Z.leb_spec days 30);
    (split; [|split; [|split]]); split; intro Hgoal;
    first [discriminate | reflexivity | lia | exfalso; lia].
Qed.

End UrgencyInTime.

(* ================================================================= *)
(** ** More on deleting *)

(** X13.  Deleting a debt: when the remote store answers, no debt of that
    id is left in it, every other debt is kept and the success is
    announced; when it refuses, the store is as it was, the list shown is
    kept and the failure is reported. *)
Theorem deleteDebt_outcome debtId st w :
  let run := DebtManager.deleteDebt debtId st in
  (reply 0 w = true ->
   (forall d, In d (db.debts (store (after run w))) <->
              In d (db.debts (store w)) /\ Debt.id d <> debtId)
   /\ In (mkToast false "Debt deleted successfully") (toasts (after run w)))
  /\ (reply 0 w = false ->
      store (after run w) = store w
      /\ fst (run w) = Returned st
      /\ toasts (after run w)
         = toasts w ++ [mkToast true "Failed to delete debt"]).
Proof.
  cbv zeta. unfold DebtManager.deleteDebt, DebtManager.loadDebts.
  destruct w as [s rq rp ts ps an ck en us].
  destruct us as [u|]; destruct rp as [|[|] [|[|] rp]]; unfold_eff; cbn;
    (split; intro H0; try discriminate);
    try (repeat split; fail);
    (split; [intro d; rewrite filter_In, negb_true_iff;
             (split; intros [Hin Hne]; split; auto;
              [intros Heq; rewrite Heq, String.eqb_refl in Hne; discriminate
              |now apply String.eqb_neq])
            |rewrite ?in_app_iff; cbn; tauto]).
Qed.

(** X14.  Removing a family member always shows one prompt that names the
    address.  Without a confirmation the state is returned as it was, no
    request is sent and the remote store is untouched; with it, and a
    store that answers, the grant of that id is gone and every other grant
    is kept. *)
Theorem removeFamilyMember_outcome memberId memberEmail st w :
  let run := FamilySharing.removeFamilyMember memberId memberEmail st in
  prompts (after run w)
  = prompts w
    ++ [("Are you sure you want to remove " ++ memberEmail
         ++ " from family access?")%string]
  /\ (hd false (answers w) = false ->
      fst (run w) = Returned st
      /\ requests (after run w) = requests w
      /\ store (after run w) = store w)
  /\ (hd false (answers w) = true -> reply 0 w = true ->
      forall f, In f (db.family_access (store (after run w))) <->
                In f (db.family_access (store w))
                /\ FamilyAccess.id f <> memberId).
Proof.
  cbv zeta.
  unfold FamilySharing.removeFamilyMember, FamilySharing.loadFamilyMembers.
  destruct w as [s rq rp ts ps an ck en us].
  destruct an as [|[|] an]; destruct us as [u|];
    destruct rp as [|[|] [|[|] rp]]; unfold_eff; cbn;
    (split; [reflexivity|split]); intro Ha; try discriminate;
    try (repeat split; fail);
    intro H0; try discriminate;
    intro f; rewrite filter_In, negb_true_iff;
    (split; intros [Hin Hne]; split; auto;
     [intros Heq; rewrite Heq, String.eqb_refl in Hne; discriminate
     |now apply String.eqb_neq]).
Qed.

(** X15.  Deleting a transaction always shows one prompt.  Without a
    confirmation the state is returned as it was, no request is sent and
    the remote store is untouched; with it, and a store that answers, the
    transaction of that id is gone and every other one is kept. *)
Theorem handleDeleteTransaction_outcome transactionId st w :
  let run := TransactionHistory.handleDeleteTransaction transactionId st in
  prompts (after run w)
  = prompts w ++ ["Are you sure you want to delete this transaction?"%string]
  /\ (hd false (answers w) = false ->
      fst (run w) = Returned st
      /\ requests (after run w) = requests w
      /\ store (after run w) = store w)
  /\ (hd false (answers w) = true -> reply 0 w = true ->
      forall t, In t (db.transactions (store (after run w))) <->
                In t (db.transactions (store w))
                /\ Transaction.id t <> transactionId).
Proof.
  cbv zeta.
  unfold TransactionHistory.handleDeleteTransaction,
    TransactionHistory.loadTransactions.
  destruct w as [s rq rp ts ps an ck en us].
  destruct an as [|[|] an]; destruct us as [u|];
    destruct rp as [|[|] [|[|] rp]]; unfold_eff; cbn;
    (split; [reflexivity|split]); intro Ha; try discriminate;
    try (repeat split; fail);
    intro H0; try discriminate;
    intro t; rewrite filter_In, negb_true_iff;
    (split; intros [Hin Hne]; split; auto;
     [intros Heq; rewrite Heq, String.eqb_refl in Hne; discriminate
     |now apply String.eqb_neq]).
Qed.

(* ================================================================= *)
(** ** Loading *)

(** X16.  Loading the debts never throws and never writes.  The requests
    it adds to the log are exactly one query for the debts of the signed-in
    user, and none at all when nobody is signed in.  It always ends with
    the loading flag off and touches nothing of the state but the list and
    that flag.  When the user is signed in and the store answers, the list
    becomes the user's debts in the store; otherwise the list is kept and
    the failure is reported. *)
Theorem loadDebts_outcome st w :
  exists st',
    fst (DebtManager.loadDebts st w) = Returned st'
    /\ DebtManager.loading st' = false
    /\ DebtManager.selectedDebt st' = DebtManager.selectedDebt st
    /\ DebtManager.newDebt st' = DebtManager.newDebt st
    /\ DebtManager.payment st' = DebtManager.payment st
    /\ store (after (DebtManager.loadDebts st) w) = store w
    /\ requests (after (DebtManager.loadDebts st) w)
       = requests w ++ match user w with
                       | Some u => [db.debts_list (User.id u)]
                       | None => []
                       end
    /\ (forall u, user w = Some u -> reply 0 w = true ->
        toasts (after (DebtManager.loadDebts st) w) = toasts w
        /\ forall d, In d (DebtManager.debts st') <->
                     In d (db.debts (store w))
                     /\ Debt.user_id d = User.id u)
    /\ (user w = None \/ reply 0 w = false ->
        DebtManager.debts st' = DebtManager.debts st
        /\ toasts (after (DebtManager.loadDebts st) w)
           = toasts w ++ [mkToast true "Failed to load debts"]).
Proof.
  unfold DebtManager.loadDebts.
  destruct w as [s rq rp ts ps an ck en us].
  destruct us as [u|]; destruct rp as [|[|] rp]; unfold_eff; cbn;
    eexists;
    repeat (split; [first [reflexivity|symmetry; apply app_nil_r]|]);
    split.
  all: try (intros u' Hu H0; discriminate).
  all: try (intros u' Hu H0; injection Hu as <-;
            split; [reflexivity|]; intro d; split;
            [intro Hin;
             apply (Permutation_in _
                      (Permutation_sym (Array_sort_Permutation _ _))) in Hin;
             apply filter_In in Hin; destruct Hin as [Hin Huid];
             split; [exact Hin|now apply String.eqb_eq]
            |intros [Hin Huid];
             apply (Permutation_in _ (Array_sort_Permutation _ _));
             apply filter_In; split; [exact Hin|now apply String.eqb_eq]]).
  all: intros [H|H]; try discriminate; split; reflexivity.
Qed.

(** X17.  Loading the family members never throws and never writes.  The
    requests it adds to the log are exactly one query for the grants of the
    signed-in user, and none at all when nobody is signed in.  It always
    ends with the loading flag off and leaves the form as it was.  With a
    signed-in user and an answering store the list becomes the user's
    grants in the store; otherwise the list is kept and the failure is
    reported. *)
Theorem loadFamilyMembers_outcome st w :
  exists st',
    fst (FamilySharing.loadFamilyMembers st w) = Returned st'
    /\ FamilySharing.loading st' = false
    /\ FamilySharing.addDialogOpen st' = FamilySharing.addDialogOpen st
    /\ FamilySharing.newMemberEmail st' = FamilySharing.newMemberEmail st
    /\ store (after (FamilySharing.loadFamilyMembers st) w) = store w
    /\ requests (after (FamilySharing.loadFamilyMembers st) w)
       = requests w ++ match user w with
                       | Some u => [db.family_access_list (User.id u)]
                       | None => []
                       end
    /\ (forall u, user w = Some u -> reply 0 w = true ->
        toasts (after (FamilySharing.loadFamilyMembers st) w) = toasts w
        /\ forall f, In f (FamilySharing.familyMembers st') <->
                     In f (db.family_access (store w))
                     /\ FamilyAccess.owner_user_id f = User.id u)
    /\ (user w = None \/ reply 0 w = false ->
        FamilySharing.familyMembers st' = FamilySharing.familyMembers st
        /\ toasts (after (FamilySharing.loadFamilyMembers st) w)
           = toasts w ++ [mkToast true "Failed to load family members"]).
Proof.
  unfold FamilySharing.loadFamilyMembers.
  destruct w as [s rq rp ts ps an ck en us].
  destruct us as [u|]; destruct rp as [|[|] rp]; unfold_eff; cbn;
    eexists;
    repeat (split; [first [reflexivity|symmetry; apply app_nil_r]|]);
    split.
  all: try (intros u' Hu H0; discriminate).
  all: try (intros u' Hu H0; injection Hu as <-;
            split; [reflexivity|]; intro d; split;
            [intro Hin;
             apply (Permutation_in _
                      (Permutation_sym (Array_sort_Permutation _ _))) in Hin;
             apply filter_In in Hin; destruct Hin as [Hin Huid];
             split; [exact Hin|now apply String.eqb_eq]
            |intros [Hin Huid];
             apply (Permutation_in _ (Array_sort_Permutation _ _));
             apply filter_In; split; [exact Hin|now apply String.eqb_eq]]).
  all: intros [H|H]; try discriminate; split; reflexivity.
Qed.

(** X18.  Loading the transactions never throws and never writes.  The
    requests it adds to the log are exactly one query for the transactions
    of the signed-in user, and none at all when nobody is signed in.  It
    always ends with the loading flag off.  With a signed-in user and an
    answering store the list becomes the user's transactions in the store;
    otherwise the list is kept and the failure is reported. *)
Theorem loadTransactions_outcome st w :
  exists st',
    fst (TransactionHistory.loadTransactions st w) = Returned st'
    /\ TransactionHistory.loading st' = false
    /\ store (after (TransactionHistory.loadTransactions st) w) = store w
    /\ requests (after (TransactionHistory.loadTransactions st) w)
       = requests w ++ match user w with
                       | Some u => [db.transactions_list (User.id u)]
                       | None => []
                       end
    /\ (forall u, user w = Some u -> reply 0 w = true ->
        toasts (after (TransactionHistory.loadTransactions st) w) = toasts w
        /\ forall t, In t (TransactionHistory.transactions st') <->
                     In t (db.transactions (store w))
                     /\ Transaction.user_id t = User.id u)
    /\ (user w = None \/ reply 0 w = false ->
        TransactionHistory.transactions st' = TransactionHistory.transactions st
        /\ toasts (after (TransactionHistory.loadTransactions st) w)
           = toasts w ++ [mkToast true "Failed to load transactions"]).
Proof.
  unfold TransactionHistory.loadTransactions.
  destruct w as [s rq rp ts ps an ck en us].
  destruct us as [u|]; destruct rp as [|[|] rp]; unfold_eff; cbn;
    eexists;
    repeat (split; [first [reflexivity|symmetry; apply app_nil_r]|]);
    split.
  all: try (intros u' Hu H0; discriminate).
  all: try (intros u' Hu H0; injection Hu as <-;
            split; [reflexivity|]; intro d; split;
            [intro Hin;
             apply (Permutation_in _
                      (Permutation_sym (Array_sort_Permutation _ _))) in Hin;
             apply filter_In in Hin; destruct Hin as [Hin Huid];
             split; [exact Hin|now apply String.eqb_eq]
            |intros [Hin Huid];
             apply (Permutation_in _ (Array_sort_Permutation _ _));
             apply filter_In; split; [exact Hin|now apply String.eqb_eq]]).
  all: intros [H|H]; try discriminate; split; reflexivity.
Qed.

(* ================================================================= *)
(** ** More on preferences and family sharing *)

Section MorePreferences.
Variable js : Builtins.

(** X19.  Loading the preferences twice creates one record, not two: with
    a signed-in user, no record of the user in the store and a store that
    answers every request, the second load finds the record the first one
    created, sends only its query and leaves the store with exactly one
    record of the user. *)
Theorem loadPreferences_second_load st st2 w u :
  user w = Some u -> replies w = [] ->
  filter (fun p => String.eqb (UserPreferences.user_id p) (User.id u))
         (db.user_preferences (store w)) = [] ->
  let created := Settings.defaultPrefs js (clock w) (entropy w) u in
  let w1 := after (Settings.loadPreferences js st) w in
  let w2 := after (Settings.loadPreferences js st2) w1 in
  requests w2
  = requests w ++ [db.user_preferences_list (User.id u);
                   db.user_preferences_create created;
                   db.user_preferences_list (User.id u)]
  /\ store w2 = store w1
  /\ filter (fun p => String.eqb (UserPreferences.user_id p) (User.id u))
            (db.user_preferences (store w2)) = [created]
  /\ exists st', fst (Settings.loadPreferences js st2 w1) = Returned st'
                 /\ Settings.preferences st' = Some created.
Proof.
  intros Hu Hr Hnone. cbv zeta.
  destruct w as [s rq rp ts ps an ck en us]. cbn in Hu, Hr, Hnone.
  subst us rp.
  unfold Settings.loadPreferences. unfold_eff. cbn.
  rewrite Hnone. cbn.
  rewrite filter_app, Hnone. cbn. rewrite String.eqb_refl. cbn.
  rewrite <- !app_assoc. cbn.
  split; [reflexivity|]. split; [reflexivity|]. split.
  - rewrite filter_app, Hnone. cbn. now rewrite String.eqb_refl.
  - eexists. split; reflexivity.
Qed.

(** X20.  Loading the preferences fails silently: when nobody is signed
    in, or the store refuses the query, or it holds no record of the user
    and refuses the new one, the state is returned as it was, the store is
    untouched and no toast is shown. *)
Theorem loadPreferences_failure st w :
  user w = None
  \/ reply 0 w = false
  \/ (exists u, user w = Some u
        /\ filter (fun p => String.eqb (UserPreferences.user_id p) (User.id u))
                  (db.user_preferences (store w)) = []
        /\ reply 1 w = false) ->
  let run := Settings.loadPreferences js st in
  fst (run w) = Returned st
  /\ store (after run w) = store w
  /\ toasts (after run w) = toasts w.
Proof.
  intro Hfail. cbv zeta. unfold Settings.loadPreferences.
  destruct w as [s rq rp ts ps an ck en us].
  destruct us as [u|]; unfold_eff; cbn in *.
  - destruct Hfail as [H|[H|[u' [Hu [Hnone H1]]]]]; try discriminate.
    + rewrite H. repeat split.
    + injection Hu as <-. destruct (nth 0 rp true); [|repeat split].
      cbn. rewrite Hnone. cbn.
      assert (E : nth 0 (tl rp) true = false)
        by (destruct rp as [|b0 [|b1 rp]]; cbn in *; congruence).
      rewrite E. repeat split.
  - repeat split.
Qed.

End MorePreferences.

Section MoreSharing.
Variable js : Builtins.

(** X21.  An address with an at-sign that is neither the user's own nor
    listed, a signed-in user and a store that takes the record: exactly
    one grant is created, for that address and owner; the store holds it
    after the grants it held; the form is emptied and the dialog closed;
    and when the reload is answered the new grant is in the list shown. *)
Theorem addFamilyMember_accepts st w u :
  let email := FamilySharing.newMemberEmail st in
  includes "@" email = true ->
  user w = Some u -> User.email u <> email ->
  (forall m, In m (FamilySharing.familyMembers st) ->
             FamilyAccess.member_email m <> email) ->
  reply 0 w = true ->
  let run := FamilySharing.addFamilyMember js st in
  let created := FamilySharing.new_member js email (clock w) (entropy w) u in
  requests (after run w)
  = requests w ++ [db.family_access_create created;
                   db.family_access_list (User.id u)]
  /\ db.family_access (store (after run w))
     = db.family_access (store w) ++ [created]
  /\ FamilyAccess.member_email created = email
  /\ FamilyAccess.owner_user_id created = User.id u
  /\ exists st',
       fst (run w) = Returned st'
       /\ FamilySharing.newMemberEmail st' = EmptyString
       /\ FamilySharing.addDialogOpen st' = false
       /\ FamilySharing.loading st' = false
       /\ (reply 1 w = true -> In created (FamilySharing.familyMembers st')).
Proof.
  cbv zeta. intros Hat Hu Hown Hnew H0.
  unfold FamilySharing.addFamilyMember, FamilySharing.loadFamilyMembers,
    FamilySharing.is_own_email.
  assert (Hf : falsy (FamilySharing.newMemberEmail st) = false).
  { destruct (FamilySharing.newMemberEmail st); [discriminate|reflexivity]. }
  rewrite Hf, Hat. cbn [negb orb].
  assert (Hfind : find (fun m => String.eqb (FamilyAccess.member_email m)
                                   (FamilySharing.newMemberEmail st))
                       (FamilySharing.familyMembers st) = None).
  { destruct (find _ _) as [m|] eqn:E; [|reflexivity].
    apply find_some in E. destruct E as [Hin Heq].
    apply String.eqb_eq in Heq. now apply Hnew in Hin. }
  destruct w as [s rq rp ts ps an ck en us]. cbn in Hu. subst us.
  unfold_eff. cbn.
  assert (Hneq : String.eqb (FamilySharing.newMemberEmail st) (User.email u)
                 = false).
  { apply String.eqb_neq. congruence. }
  rewrite Hneq, Hfind. cbn in H0. cbn. rewrite H0. cbn.
  destruct (nth 0 (tl rp) true) eqn:E1; cbn; rewrite <- ?app_assoc;
    (repeat split; try reflexivity); eexists;
    (repeat split; try reflexivity).
  - intros _. cbn.
    apply (Permutation_in _ (Array_sort_Permutation _ _)).
    apply filter_In. split.
    + apply in_or_app. right. left. reflexivity.
    + cbn. apply String.eqb_refl.
  - destruct rp as [|b0 [|b1 rp]]; cbn in *; congruence.
Qed.

(** X22.  An address that passes the guards when nobody is signed in or
    the store refuses the record: the failure is reported once, the form
    stays as it was and the remote store is untouched. *)
Theorem addFamilyMember_failure st w :
  let email := FamilySharing.newMemberEmail st in
  includes "@" email = true ->
  (forall u, user w = Some u -> User.email u <> email) ->
  (forall m, In m (FamilySharing.familyMembers st) ->
             FamilyAccess.member_email m <> email) ->
  user w = None \/ reply 0 w = false ->
  let run := FamilySharing.addFamilyMember js st in
  fst (run w) = Returned st
  /\ store (after run w) = store w
  /\ toasts (after run w)
     = toasts w ++ [mkToast true "Failed to add family member"].
Proof.
  cbv zeta. intros Hat Hown Hnew Hfail.
  unfold FamilySharing.addFamilyMember, FamilySharing.loadFamilyMembers,
    FamilySharing.is_own_email.
  assert (Hf : falsy (FamilySharing.newMemberEmail st) = false).
  { destruct (FamilySharing.newMemberEmail st); [discriminate|reflexivity]. }
  rewrite Hf, Hat. cbn [negb orb].
  assert (Hfind : find (fun m => String.eqb (FamilyAccess.member_email m)
                                   (FamilySharing.newMemberEmail st))
                       (FamilySharing.familyMembers st) = None).
  { destruct (find _ _) as [m|] eqn:E; [|reflexivity].
    apply find_some in E. destruct E as [Hin Heq].
    apply String.eqb_eq in Heq. now apply Hnew in Hin. }
  destruct w as [s rq rp ts ps an ck en us].
  destruct us as [u|]; unfold_eff; cbn in *.
  - assert (Hneq : String.eqb (FamilySharing.newMemberEmail st) (User.email u)
                   = false).
    { apply String.eqb_neq. intro E. apply (Hown u eq_refl). congruence. }
    rewrite Hneq, Hfind. cbn.
    destruct Hfail as [H|H]; [discriminate|]. rewrite H. cbn. repeat split.
  - rewrite Hfind. cbn. repeat split.
Qed.

End MoreSharing.

(* ================================================================= *)
(** ** Counts of the category report *)

Lemma list_sum_Permutation (l l' : list nat) :
  Permutation l l' -> list_sum l = list_sum l'.
Proof.
  unfold list_sum.
  induction 1 as [|x l l' _ IH|x y l|l l' l'' _ IH1 _ IH2];
    cbn [fold_right]; lia.
Qed.

Section Counting.
Context {T V : Type}.
Variable key : T -> string.
Variable init : V.
Variable f : V -> T -> V.
Variable measure : V -> nat.

Hypothesis measure_init : measure init = 0%nat.
Hypothesis measure_step : forall v x, measure (f v x) = (measure v + 1)%nat.

Let counted (m : Map.t V) : nat :=
  list_sum (map (fun e => measure (snd e)) m).

Lemma counted_set (k : string) (v : V) (m : Map.t V) :
  (counted (Map.set k v m)
   + match Map.get k m with Some e => measure e | None => 0 end
   = counted m + measure v)%nat.
Proof.
  unfold counted, list_sum.
  induction m as [|[k' v'] m IH]; cbn [Map.set Map.get map fold_right snd].
  - lia.
  - destruct (String.eqb k' k); cbn [map fold_right snd]; lia.
Qed.

(** Grouping loses no element: the measures of the groups add up to the
    number of elements. *)
Lemma counted_fold_upsert (l : list T) (m : Map.t V) :
  counted (fold_left (upsert key init f) l m) = (counted m + length l)%nat.
Proof.
  revert m. induction l as [|x l IH]; intro m; cbn [fold_left length].
  - lia.
  - rewrite IH. unfold upsert.
    pose proof (counted_set (key x)
                  (f match Map.get (key x) m with
                     | Some e => e
                     | None => init
                     end x) m) as Hset.
    rewrite measure_step in Hset.
    destruct (Map.get (key x) m) as [e|]; [|rewrite measure_init in Hset];
      lia.
Qed.

End Counting.

(** X23.  The category report counts every transaction once: for a type,
    the counts of its rows add up to the number of transactions of that
    type. *)
Theorem getCategoryData_counts (transactions : list Transaction.t)
    (type : TransactionType) :
  list_sum (map CategoryData.transactions
              (Analytics.getCategoryData transactions type))
  = length (of_type type transactions).
Proof.
  unfold Analytics.getCategoryData.
  rewrite category_step_upsert. fold (of_type type transactions).
  rewrite <- (list_sum_Permutation _ _
                (Permutation_map _ (Array_sort_Permutation _ _))).
  rewrite map_map.
  rewrite (map_ext _ (fun e => CategorySums.count (snd e)))
    by (intros [k v]; reflexivity).
  unfold Map.entries.
  rewrite (counted_fold_upsert Transaction.category (CategorySums.mk 0 0)
             category_add CategorySums.count).
  - reflexivity.
  - reflexivity.
  - intros v x. reflexivity.
Qed.


(* ================================================================= *)
(** ** The dashboard against the monthly report *)

Section DashboardFigures.
Variable js : Builtins.

Lemma prefix_is_month_key (k : string) (t : Transaction.t) :
  String.length k = 7%nat ->
  String.prefix k (Transaction.date t) = String.eqb (monthKey t) k.
Proof.
  intro Hlen. unfold monthKey.
  destruct (String.eqb_spec (substring 0 7 (Transaction.date t)) k) as [E|E].
  - apply prefix_correct. now rewrite Hlen.
  - destruct (String.prefix k (Transaction.date t)) eqn:P; [|reflexivity].
    apply prefix_correct in P. rewrite Hlen in P. contradiction.
Qed.

(** X26.  On the same transactions the dashboard and the monthly report
    agree: when the host prints the current month as seven characters, the
    month's income and expenses on the dashboard are those of the report's
    row for that month, and both are zero when the report has no such
    row. *)
Theorem dashboard_matches_report now (transactions : list Transaction.t) :
  String.length (Dashboard.thisMonth js now) = 7%nat ->
  let report := Analytics.getMonthlyData transactions in
  (forall row,
      In row report ->
      MonthlyData.month row = Dashboard.thisMonth js now ->
      Dashboard.monthlyIncome js now transactions == MonthlyData.income row
      /\ Dashboard.monthlyExpenses js now transactions
         == MonthlyData.expenses row)
  /\ (~ In (Dashboard.thisMonth js now) (map MonthlyData.month report) ->
      Dashboard.monthlyIncome js now transactions = 0
      /\ Dashboard.monthlyExpenses js now transactions = 0).
Proof.
  intro Hlen. cbv zeta.
  assert (Hfilter : Dashboard.monthlyTransactions js now transactions
                    = of_month (Dashboard.thisMonth js now) transactions).
  { unfold Dashboard.monthlyTransactions, of_month. apply filter_ext.
    intro t. now apply prefix_is_month_key. }
  unfold Dashboard.monthlyIncome, Dashboard.monthlyExpenses.
  rewrite Hfilter.
  fold (of_type income (of_month (Dashboard.thisMonth js now) transactions)).
  fold (of_type expense (of_month (Dashboard.thisMonth js now) transactions)).
  split.
  - intros row Hin Hmonth. apply getMonthlyData_rows in Hin.
    destruct Hin as [_ He]. rewrite Hmonth in He.
    destruct (monthly_add_fold
                (of_month (Dashboard.thisMonth js now) transactions)
                (MonthlySums.mk 0 0)) as [Hi Hx].
    cbn [MonthlySums.income MonthlySums.expenses] in Hi, Hx.
    rewrite !sum_fold_left. rewrite He. cbn [monthly_row MonthlyData.income
                                           MonthlyData.expenses].
    rewrite Hi, Hx. split; lra.
  - intro Hnot.
    assert (Hempty : of_month (Dashboard.thisMonth js now) transactions = []).
    { destruct (of_month _ transactions) as [|t rest] eqn:E; [reflexivity|].
      exfalso. apply Hnot. apply in_map_iff.
      exists (monthly_row
                (Dashboard.thisMonth js now,
                 fold_left monthly_add
                   (of_month (Dashboard.thisMonth js now) transactions)
                   (MonthlySums.mk 0 0))).
      split; [reflexivity|]. apply getMonthlyData_rows. cbn.
      split; [|reflexivity]. rewrite E. discriminate. }
    rewrite Hempty. split; reflexivity.
Qed.

End DashboardFigures.

(* ================================================================= *)
(** ** The export and the palette *)






Section CsvExport.
Variable js : Builtins.




End CsvExport.

(** X28.  Every index has a colour: the palette is used cyclically, so the
    colour of a category is never undefined and repeats every ten
    rows. *)
Theorem getColorForCategory_defined (index : nat) :
  (exists color,
      AnalyticsSummary.getColorForCategory index = Some color
      /\ In color AnalyticsSummary.colors)
  /\ AnalyticsSummary.getColorForCategory (index + 10)
     = AnalyticsSummary.getColorForCategory index.
Proof.
  unfold AnalyticsSummary.getColorForCategory.
  change (length AnalyticsSummary.colors) with 10%nat.
  split.
  - destruct (nth_error AnalyticsSummary.colors (index mod 10)) as [c|] eqn:E.
    + exists c. split; [reflexivity|]. eapply nth_error_In; eauto.
    + apply nth_error_None in E.
      pose proof (Nat.mod_upper_bound index 10 ltac:(lia)).
      change (length AnalyticsSummary.colors) with 10%nat in E. lia.
  - f_equal. replace (index + 10)%nat with (index + 1 * 10)%nat by lia.
    apply Nat.Div0.mod_add.
Qed.

(* ================================================================= *)
(** ** The further properties on the sample data *)

Ltac by_evaluation :=
  first [reflexivity
        | vm_compute; reflexivity
        | vm_compute; discriminate
        | vm_compute; repeat split; first [reflexivity | discriminate]].

(** A form without a purpose is refused. *)
Lemma handleAddDebt_rejects_witness :
  let st :=
    DebtManager.mkState [] false true false None
      (NewDebt.mk owe "Sam" "200" EmptyString EmptyString)
      (Payment.mk EmptyString EmptyString) in
  exists message,
    DebtManager.handleAddDebt Host.js st Sample.world
    = (Returned st,
       with_toasts (toasts Sample.world ++ [mkToast true message])
                   Sample.world).
Proof.
  cbv zeta.
  apply (handleAddDebt_rejects Host.js).
  right. right. left. reflexivity.
Defined.

Lemma sample_form_valid :
  valid_new_debt Host.js (DebtManager.newDebt Sample.adding) 200.
Proof. repeat split. Qed.

Lemma sample_payment_accepted :
  accepted_payment Host.js (Sample.paying "40") Sample.debt 40.
Proof. repeat split; by_evaluation. Qed.

(** The sample form adds the debt of 200 after the sample debt. *)
Lemma handleAddDebt_accepts_witness :
  db.debts (store (after (DebtManager.handleAddDebt Host.js Sample.adding)
                         Sample.world))
  = [Sample.debt; Scenario.created]
  /\ Debt.remaining_amount_cad Scenario.created = 200.
Proof.
  destruct (handleAddDebt_accepts Host.js Sample.adding Sample.world 200
              Sample.owner sample_form_valid eq_refl eq_refl)
    as [_ [Hstore [_ [Hrem _]]]].
  split; [exact Hstore|exact Hrem].
Defined.

(** With nobody signed in the sample form stays as typed. *)
Lemma handleAddDebt_failure_witness :
  fst (DebtManager.handleAddDebt Host.js Sample.adding Scenario.signed_out)
  = Returned Sample.adding
  /\ store (after (DebtManager.handleAddDebt Host.js Sample.adding)
                  Scenario.signed_out)
     = store Scenario.signed_out.
Proof.
  destruct (handleAddDebt_failure Host.js Sample.adding Scenario.signed_out
              200 sample_form_valid (or_introl eq_refl))
    as [Hst [Hstore _]].
  split; [exact Hst|exact Hstore].
Defined.

(** The payment of 40 is stored, the debt still shows 100. *)
Lemma handlePayment_partial_failure_witness :
  let w' := after (DebtManager.handlePayment Host.js (Sample.paying "40"))
                  Scenario.half_refusing in
  length (db.debt_payments (store w')) = 1%nat
  /\ db.debts (store w') = [Sample.debt].
Proof.
  destruct (handlePayment_partial_failure Host.js (Sample.paying "40")
              Scenario.half_refusing Sample.debt 40 Sample.owner
              sample_payment_accepted eq_refl eq_refl eq_refl)
    as [Hpay [Hdebts _]].
  cbv zeta. rewrite Hpay, Hdebts. split; reflexivity.
Defined.

Lemma handlePayment_first_write_fails_witness :
  store (after (DebtManager.handlePayment Host.js (Sample.paying "40"))
               Scenario.refusing)
  = store Scenario.refusing
  /\ fst (DebtManager.handlePayment Host.js (Sample.paying "40")
            Scenario.refusing)
     = Returned (Sample.paying "40").
Proof.
  destruct (handlePayment_first_write_fails Host.js (Sample.paying "40")
              Scenario.refusing Sample.debt 40 sample_payment_accepted
              (or_intror eq_refl))
    as [Hstore [_ [Hst _]]].
  split; [exact Hstore|exact Hst].
Defined.

Lemma handlePayment_record_witness :
  let record :=
    DebtManager.paymentRecord Host.js Sample.debt 40 EmptyString
      Sample.today "k3x9q2m1z" Sample.owner in
  exists selected,
    DebtManager.selectedDebt (Sample.paying "40") = Some selected
    /\ DebtPayment.debt_id record = Debt.id selected
    /\ parseFloat Host.js (Payment.amount (DebtManager.payment
                                             (Sample.paying "40")))
       = Some (DebtPayment.amount_cad record)
    /\ 0 < DebtPayment.amount_cad record
    /\ DebtPayment.amount_cad record <= Debt.remaining_amount_cad selected
    /\ DebtPayment.amount_inr record = DebtPayment.amount_cad record * 61.5
    /\ DebtPayment.exchange_rate record = 61.5.
Proof.
  cbv zeta.
  apply (handlePayment_record Host.js (Sample.paying "40") Sample.world).
  exists [db.debt_payments_create
            (DebtManager.paymentRecord Host.js Sample.debt 40 EmptyString
               Sample.today "k3x9q2m1z" Sample.owner);
          db.debts_update "debt_1"
            (DebtManager.updatedDebt Host.js Sample.debt 40 Sample.today);
          db.debts_list "user_1"].
  split; [vm_compute; reflexivity|]. left. reflexivity.
Defined.

Lemma handlePayment_closes_form_witness :
  exists st',
    fst (DebtManager.handlePayment Host.js (Sample.paying "40") Sample.world)
    = Returned st'
    /\ DebtManager.selectedDebt st' = None
    /\ DebtManager.paymentDialogOpen st' = false
    /\ In (DebtManager.updatedDebt Host.js Sample.debt 40 Sample.today)
          (DebtManager.debts st').
Proof.
  destruct (handlePayment_closes_form Host.js (Sample.paying "40")
              Sample.world Sample.debt 40 Sample.owner
              sample_payment_accepted eq_refl eq_refl eq_refl)
    as [st' [Hst [Hsel [Hdlg [_ [_ Hin]]]]]].
  exists st'. split; [exact Hst|]. split; [exact Hsel|].
  split; [exact Hdlg|].
  apply Hin; [reflexivity|left; reflexivity|reflexivity].
Defined.

Lemma sample_created_produced : produced Host.js Scenario.created.
Proof.
  apply (produced_by_add Host.js Sample.adding Sample.world).
  exists [db.debts_create Scenario.created; db.debts_list "user_1"].
  split; [vm_compute; reflexivity|]. left. reflexivity.
Qed.

Lemma sample_settled_produced : produced Host.js Scenario.settled.
Proof.
  apply (produced_by_payment Host.js
           (Scenario.paying Scenario.created "200") Sample.world
           Scenario.created "debt_1705312800000_k3x9q2m1z").
  - reflexivity.
  - exact sample_created_produced.
  - exists [db.debt_payments_create
              (DebtManager.paymentRecord Host.js Scenario.created 200
                 EmptyString Sample.today "k3x9q2m1z" Sample.owner);
            db.debts_update "debt_1705312800000_k3x9q2m1z" Scenario.settled;
            db.debts_list "user_1"].
    split; [vm_compute; reflexivity|]. right. left. reflexivity.
Qed.

Lemma produced_secondary_amounts_witness :
  0 < Debt.total_amount_cad Scenario.settled
  /\ Debt.exchange_rate Scenario.settled = 61.5
  /\ Debt.total_amount_inr Scenario.settled
     = Debt.total_amount_cad Scenario.settled * 61.5
  /\ Debt.remaining_amount_inr Scenario.settled
     = Debt.remaining_amount_cad Scenario.settled * 61.5.
Proof.
  exact (produced_secondary_amounts Host.js Scenario.settled
           sample_settled_produced).
Defined.

(** The settled debt refuses a payment of 1. *)
Lemma settled_debt_takes_no_payment_witness :
  exists message,
    DebtManager.handlePayment Host.js (Scenario.paying Scenario.settled "1")
      Sample.world
    = (Returned (Scenario.paying Scenario.settled "1"),
       with_toasts (toasts Sample.world ++ [mkToast true message])
                   Sample.world).
Proof.
  apply (settled_debt_takes_no_payment Host.js Scenario.settled
           (Scenario.paying Scenario.settled "1") Sample.world).
  - exact sample_settled_produced.
  - vm_compute. reflexivity.
  - reflexivity.
Defined.

Lemma progressPercentage_bounds_witness :
  0 < Debt.total_amount_cad Scenario.created
  /\ 0 <= DebtCard.progressPercentage Scenario.created
  /\ DebtCard.progressPercentage Scenario.created <= 100.
Proof.
  exact (progressPercentage_bounds Host.js Scenario.created
           sample_created_produced).
Defined.

(** Due on the 22nd is at least as urgent as due on the 20th of the next
    month. *)
Lemma priority_monotone_witness :
  (urgency (DebtManager.getPriorityLevel Host.js Sample.today
              (Scenario.due_on "2024-02-20"))
   <= urgency (DebtManager.getPriorityLevel Host.js Sample.today
                 (Scenario.due_on "2024-01-22")))%nat.
Proof.
  apply (priority_monotone Host.js Sample.today Sample.today
           (Scenario.due_on "2024-02-20") (Scenario.due_on "2024-01-22")
           "2024-02-20" "2024-01-22" 1708387200000%Z 1705881600000%Z);
    by_evaluation.
Defined.

(** Due at midnight of the day on which it is looked at, at 10:00: ten
    hours late, still urgent, not overdue. *)
Lemma priority_thresholds_witness :
  DebtManager.getPriorityLevel Host.js Sample.today
    (Scenario.due_on "2024-01-15") = urgent.
Proof.
  destruct (priority_thresholds Host.js Sample.today
              (Scenario.due_on "2024-01-15") "2024-01-15" 1705276800000%Z
              eq_refl eq_refl eq_refl)
    as [_ [Hurgent _]].
  apply Hurgent. vm_compute. split; [reflexivity|discriminate].
Defined.

Lemma deleteDebt_outcome_witness :
  (forall d, In d (db.debts (store (after (DebtManager.deleteDebt "debt_1"
                                             (Sample.paying EmptyString))
                                          Sample.world)))
             <-> In d (db.debts (store Sample.world))
                 /\ Debt.id d <> "debt_1"%string)
  /\ store (after (DebtManager.deleteDebt "debt_1"
                     (Sample.paying EmptyString)) Scenario.refusing)
     = store Scenario.refusing.
Proof.
  split.
  - destruct (deleteDebt_outcome "debt_1" (Sample.paying EmptyString)
                Sample.world) as [H _].
    destruct (H eq_refl) as [H' _]. exact H'.
  - destruct (deleteDebt_outcome "debt_1" (Sample.paying EmptyString)
                Scenario.refusing) as [_ H].
    destruct (H eq_refl) as [H' _]. exact H'.
Defined.

Lemma removeFamilyMember_outcome_witness :
  requests (after (FamilySharing.removeFamilyMember "family_1"
                     "sister@example.com" (Sample.inviting EmptyString))
                  Sample.world) = requests Sample.world
  /\ (forall f, In f (db.family_access
                        (store (after (FamilySharing.removeFamilyMember
                                         "family_1" "sister@example.com"
                                         (Sample.inviting EmptyString))
                                      Scenario.confirming)))
                <-> In f (db.family_access (store Scenario.confirming))
                    /\ FamilyAccess.id f <> "family_1"%string).
Proof.
  split.
  - destruct (removeFamilyMember_outcome "family_1" "sister@example.com"
                (Sample.inviting EmptyString) Sample.world) as [_ [H _]].
    destruct (H eq_refl) as [_ [H' _]]. exact H'.
  - destruct (removeFamilyMember_outcome "family_1" "sister@example.com"
                (Sample.inviting EmptyString) Scenario.confirming)
      as [_ [_ H]].
    exact (H eq_refl eq_refl).
Defined.

Lemma handleDeleteTransaction_outcome_witness :
  requests (after (TransactionHistory.handleDeleteTransaction "transaction_1"
                     Scenario.history) Sample.world)
  = requests Sample.world
  /\ (forall t, In t (db.transactions
                        (store (after (TransactionHistory.handleDeleteTransaction
                                         "transaction_1" Scenario.history)
                                      Scenario.confirming)))
                <-> In t (db.transactions (store Scenario.confirming))
                    /\ Transaction.id t <> "transaction_1"%string).
Proof.
  split.
  - destruct (handleDeleteTransaction_outcome "transaction_1"
                Scenario.history Sample.world) as [_ [H _]].
    destruct (H eq_refl) as [_ [H' _]]. exact H'.
  - destruct (handleDeleteTransaction_outcome "transaction_1"
                Scenario.history Scenario.confirming) as [_ [_ H]].
    exact (H eq_refl eq_refl).
Defined.

Lemma loadDebts_outcome_witness :
  exists st',
    fst (DebtManager.loadDebts (Sample.paying EmptyString) Sample.world)
    = Returned st'
    /\ DebtManager.loading st' = false
    /\ (forall d, In d (DebtManager.debts st') <->
                  In d (db.debts (store Sample.world))
                  /\ Debt.user_id d = "user_1"%string).
Proof.
  destruct (loadDebts_outcome (Sample.paying EmptyString) Sample.world)
    as [st' [Hst [Hload [_ [_ [_ [_ [_ [Hok _]]]]]]]]].
  exists st'. split; [exact Hst|]. split; [exact Hload|].
  destruct (Hok Sample.owner eq_refl eq_refl) as [_ H]. exact H.
Defined.

Lemma loadFamilyMembers_outcome_witness :
  exists st',
    fst (FamilySharing.loadFamilyMembers (Sample.inviting EmptyString)
           Scenario.signed_out) = Returned st'
    /\ FamilySharing.loading st' = false
    /\ FamilySharing.familyMembers st' = [Sample.grant].
Proof.
  destruct (loadFamilyMembers_outcome (Sample.inviting EmptyString)
              Scenario.signed_out)
    as [st' [Hst [Hload [_ [_ [_ [_ [_ Hfail]]]]]]]].
  exists st'. split; [exact Hst|]. split; [exact Hload|].
  destruct (Hfail (or_introl eq_refl)) as [H _]. exact H.
Defined.

Lemma loadTransactions_outcome_witness :
  exists st',
    fst (TransactionHistory.loadTransactions Scenario.history
           Scenario.confirming) = Returned st'
    /\ TransactionHistory.loading st' = false
    /\ (forall t, In t (TransactionHistory.transactions st') <->
                  In t Sample.ledger
                  /\ Transaction.user_id t = "user_1"%string).
Proof.
  destruct (loadTransactions_outcome Scenario.history Scenario.confirming)
    as [st' [Hst [Hload [_ [_ [Hok _]]]]]].
  exists st'. split; [exact Hst|]. split; [exact Hload|].
  destruct (Hok Sample.owner eq_refl eq_refl) as [_ H]. exact H.
Defined.

Lemma loadPreferences_second_load_witness :
  let w1 := after (Settings.loadPreferences Host.js Sample.settings)
                  Sample.world in
  let w2 := after (Settings.loadPreferences Host.js Sample.settings) w1 in
  store w2 = store w1
  /\ filter (fun p => String.eqb (UserPreferences.user_id p) "user_1")
            (db.user_preferences (store w2))
     = [Settings.defaultPrefs Host.js Sample.today "k3x9q2m1z" Sample.owner].
Proof.
  destruct (loadPreferences_second_load Host.js Sample.settings
              Sample.settings Sample.world Sample.owner
              eq_refl eq_refl eq_refl)
    as [_ [Hstore [Hone _]]].
  cbv zeta. split; [exact Hstore|exact Hone].
Defined.

Lemma loadPreferences_failure_witness :
  fst (Settings.loadPreferences Host.js Sample.settings Scenario.refusing)
  = Returned Sample.settings
  /\ toasts (after (Settings.loadPreferences Host.js Sample.settings)
                   Scenario.refusing) = [].
Proof.
  destruct (loadPreferences_failure Host.js Sample.settings Scenario.refusing
              (or_intror (or_introl eq_refl)))
    as [Hst [_ Htoasts]].
  split; [exact Hst|exact Htoasts].
Defined.

Lemma addFamilyMember_accepts_witness :
  db.family_access
    (store (after (FamilySharing.addFamilyMember Host.js
                     (Sample.inviting "brother@example.com")) Sample.world))
  = [Sample.grant;
     FamilySharing.new_member Host.js "brother@example.com" Sample.today
       "k3x9q2m1z" Sample.owner].
Proof.
  destruct (addFamilyMember_accepts Host.js
              (Sample.inviting "brother@example.com") Sample.world
              Sample.owner) as [_ [Hstore _]].
  - reflexivity.
  - reflexivity.
  - vm_compute. discriminate.
  - intros m [<-|[]]. vm_compute. discriminate.
  - reflexivity.
  - exact Hstore.
Defined.

Lemma addFamilyMember_failure_witness :
  fst (FamilySharing.addFamilyMember Host.js
         (Sample.inviting "brother@example.com") Scenario.refusing)
  = Returned (Sample.inviting "brother@example.com")
  /\ store (after (FamilySharing.addFamilyMember Host.js
                     (Sample.inviting "brother@example.com"))
                  Scenario.refusing)
     = store Scenario.refusing.
Proof.
  destruct (addFamilyMember_failure Host.js
              (Sample.inviting "brother@example.com") Scenario.refusing)
    as [Hst [Hstore _]].
  - reflexivity.
  - intros u [= <-]. vm_compute. discriminate.
  - intros m [<-|[]]. vm_compute. discriminate.
  - right. reflexivity.
  - split; [exact Hst|exact Hstore].
Defined.

Lemma dashboard_matches_report_witness :
  let row := MonthlyData.mk "2024-01" 100 30 70 in
  Dashboard.monthlyIncome Host.js Sample.today Sample.ledger
  == MonthlyData.income row
  /\ Dashboard.monthlyExpenses Host.js Sample.today Sample.ledger
     == MonthlyData.expenses row.
Proof.
  destruct (dashboard_matches_report Host.js Sample.today Sample.ledger
              eq_refl) as [H _].
  apply (H (MonthlyData.mk "2024-01" 100 30 70)).
  - vm_compute. left. reflexivity.
  - vm_compute. reflexivity.
Defined.

